(** * ApplyRE: scoped find/replace rules and their rule-file parser

    A shallow embedding of [ApplyRE.py]: the [RegExpression] class (rule
    construction from a scope label, broad and narrow application) and the
    rule-file parser [get_regexes], followed by the properties of the
    specification that concern them.

    Conventions of the embedding.
    - A Python [str] is a [string]; a character stands for the code point
      of the same number, so the texts covered are those of code points
      U+0000 to U+00FF.  [str.lower], [str.strip] and [str.rstrip] are
      written out for that range.
    - Python exceptions are values of [exn]; a call that may raise returns
      a [result].
    - The regular-expression engine ([re.compile], [pattern.subn]) is an
      interface, [Regex]; the program is verified for every engine, and the
      worked examples run on [LiteralRe], the engine restricted to patterns
      without metacharacters.
    - A list object mutated in place (the SFM record given to
      [apply_narrowly]) is threaded through the call: the function returns
      the content the object has when the call ends. *)

From Stdlib Require Import Ascii String.
From stdpp Require Import base option list strings pretty gmap.

Local Open Scope string_scope.

(** ** Python strings *)

Module PyStr.

Definition LF : ascii := "010"%char.
Definition CR : ascii := "013"%char.
Definition SP : ascii := " "%char.
Definition COLON : ascii := ":"%char.

(** ["\n"] *)
Definition nl : string := String LF "".

(** [str.lower] on one code point below 256: the capitals A-Z and
    U+00C0-U+00DE (the multiplication sign U+00D7 apart) move up by 32. *)
Definition lower_char (c : ascii) : ascii :=
  let n := nat_of_ascii c in
  if (((65 <=? n) && (n <=? 90))
      || ((192 <=? n) && (n <=? 222) && negb (n =? 215)))%nat
  then ascii_of_nat (n + 32) else c.

(** [s.lower()] *)
Fixpoint lower (s : string) : string :=
  match s with
  | "" => ""
  | String c s' => String (lower_char c) (lower s')
  end.

(** [s.startswith(p)] *)
Fixpoint startswith (s p : string) {struct p} : bool :=
  match p, s with
  | "", _ => true
  | String _ _, "" => false
  | String a p', String b s' => bool_decide (a = b) && startswith s' p'
  end.

(** [c in s] for a one-character [c] *)
Fixpoint contains (c : ascii) (s : string) : bool :=
  match s with
  | "" => false
  | String a s' => bool_decide (a = c) || contains c s'
  end.

(** [s.split(sep)] for a one-character separator: never empty, and
    adjacent separators delimit empty strings. *)
Fixpoint split (sep : ascii) (s : string) : list string :=
  match s with
  | "" => [""]
  | String c s' =>
      if bool_decide (c = sep) then "" :: split sep s'
      else match split sep s' with
           | [] => [String c ""]
           | w :: ws => String c w :: ws
           end
  end.

(** [c.isspace()] below 256 *)
Definition isspace (c : ascii) : bool :=
  let n := nat_of_ascii c in
  (((9 <=? n) && (n <=? 13)) || ((28 <=? n) && (n <=? 32))
   || (n =? 133) || (n =? 160))%nat.

(** the characters of ["\r\n"], the argument of [rstrip] in the parser *)
Definition is_crlf (c : ascii) : bool :=
  bool_decide (c = CR) || bool_decide (c = LF).

(** [s.rstrip(chars)], the set [chars] given as a predicate *)
Fixpoint rstrip_of (p : ascii -> bool) (s : string) : string :=
  match s with
  | "" => ""
  | String c s' =>
      match rstrip_of p s' with
      | "" => if p c then "" else String c ""
      | r => String c r
      end
  end.

(** [s.lstrip(chars)] *)
Fixpoint lstrip_of (p : ascii -> bool) (s : string) : string :=
  match s with
  | "" => ""
  | String c s' => if p c then lstrip_of p s' else s
  end.

(** [s.rstrip()] and [s.strip()] *)
Definition rstrip (s : string) : string := rstrip_of isspace s.
Definition strip (s : string) : string := rstrip_of isspace (lstrip_of isspace s).

(** [''.join(l)] *)
Fixpoint join (l : list string) : string :=
  match l with
  | [] => ""
  | s :: l' => s +:+ join l'
  end.

(** The lines of a text, each with its line end, as [readline] and
    [readlines] deliver them: a line stops after ["\n"]; only the last
    one can lack it. *)
Fixpoint lines (s : string) : list string :=
  match s with
  | "" => []
  | String c s' =>
      if bool_decide (c = LF) then nl :: lines s'
      else match lines s' with
           | [] => [String c ""]
           | l :: ls => String c l :: ls
           end
  end.

End PyStr.

(** ** Exceptions and results *)

(** The exceptions the program can end with.  [Exception msg] is the
    built-in [Exception] raised by the program itself with message [msg];
    [re_error] is the engine's error; [TypeError] and [AttributeError] are
    what Python raises when [None] is used as a string. *)
Inductive exn : Type :=
| Exception (msg : string)
| re_error
| TypeError
| AttributeError.

Inductive result (A : Type) : Type :=
| Ok (a : A)
| Raise (e : exn).
Arguments Ok {A} a.
Arguments Raise {A} e.

Definition rbind {A B : Type} (r : result A) (k : A -> result B) : result B :=
  match r with
  | Ok a => k a
  | Raise e => Raise e
  end.

Notation "x <-! r ;; k" := (rbind r (fun x => k))
  (at level 100, r at next level, right associativity, only parsing).

(** The error classes of the specification, told apart by the message the
    program gives to [Exception]. *)
Definition InvalidScopeError (label : string) : exn :=
  Exception ("Invalid regex scope label: " +:+ label).

Definition WrongModeError_broadly : exn :=
  Exception "This regex is not intended to be applied broadly to the whole file.".

Definition WrongModeError_narrowly : exn :=
  Exception "This regex is intended to be applied broadly to the whole file, NOT narrowly.".

Definition is_WrongModeError (e : exn) : Prop :=
  e = WrongModeError_broadly \/ e = WrongModeError_narrowly.

Definition is_ConfigError (e : exn) : Prop :=
  exists rest, e = Exception ("Config ERROR" +:+ rest).

(** ** The regular-expression engine *)

(** [re_compile find] is [re.compile(find, flags)] with the flags of the
    program, [None] when it raises; [re_subn p repl s] is
    [p.subn(repl, s, 0)]: the text with every match replaced and the number
    of replacements, [None] when it raises. *)
Class Regex : Type := {
  Pattern : Type;
  re_compile : string -> option Pattern;
  re_subn : Pattern -> string -> string -> option (string * nat)
}.

(** ** Constants *)

Definition STOP_IGNORING : string := "}}".
Definition RECORD_MARKER : string := "lx".
Definition REGEX_DESC : string := "##".
Definition BROAD : string := "broad".
Definition NARROW : string := "sfmval".
Definition NARROW_NON_SPECIFIC : string := "sfmval".
Definition DISABLED : string := "disable".

(** ** class RegExpression *)

Module RegExpression.

(** A field of an SFM record: the list [[mkr, field_data]]. *)
Abbreviation field := (string * string)%type.

Section WithEngine.
Context `{Regex}.

(** The attributes of an instance.  [_find] is the compiled pattern,
    [_findstr] and [_replace] the texts it was made from; [narrow] and
    [_narrow_specific] encode the scope, [_fields] the field markers of a
    narrow rule with specific fields. *)
Record t : Type := Build {
  _find : Pattern;
  _findstr : string;
  _replace : string;
  _fields : list string;
  narrow : bool;
  _narrow_specific : bool
}.

(** [RegExpression.__init__(find_this, replace_with, fields)], with the
    default flags.  The pattern is compiled first, so a pattern the
    engine rejects raises before the scope label is looked at. *)
Definition __init__ (find_this replace_with fields : string) : result t :=
  match re_compile find_this with
  | None => Raise re_error
  | Some pat =>
      let f := PyStr.lower fields in
      if PyStr.startswith f BROAD then
        Ok (Build pat find_this replace_with [] false false)
      else if PyStr.startswith f (NARROW +:+ ":")
              || PyStr.startswith f (NARROW +:+ " ") then
        Ok (Build pat find_this replace_with
              (tail (PyStr.split PyStr.SP fields)) true true)
      else if PyStr.startswith f NARROW_NON_SPECIFIC then
        Ok (Build pat find_this replace_with [] true false)
      else Raise (InvalidScopeError fields)
  end.

(** [self.apply(data)].  The message printed before the engine's error
    is raised again is left out: standard output is not part of the
    embedding. *)
Definition apply (self : t) (data : string) : result (string * nat) :=
  if narrow self then Raise WrongModeError_broadly
  else match re_subn (_find self) (_replace self) data with
       | Some ret => Ok ret
       | None => Raise re_error
       end.

(** The test of line 118: does the rule reach the field marked [mkr]? *)
Definition in_scope (self : t) (mkr : string) : bool :=
  negb (_narrow_specific self) || bool_decide (mkr ∈ _fields self).

(** The [for] loop of [apply_narrowly].  The iterator reads
    [record[i]] from the list as it is at that moment and stops when
    [i] reaches its length; [todo] bounds the number of turns and is
    started at the length of the list, which the loop never changes.
    The result is the content of the list when the loop ends, and the
    count or the exception of the engine. *)
Fixpoint narrow_loop (self : t) (todo i count : nat) (record : list field)
  : list field * result nat :=
  match todo with
  | 0 => (record, Ok count)
  | S todo' =>
      match record !! i with
      | None => (record, Ok count)
      | Some (mkr, field_data) =>
          if in_scope self mkr then
            match re_subn (_find self) (_replace self) field_data with
            | None => (record, Raise re_error)
            | Some (field_data', c) =>
                match c with
                | 0 => narrow_loop self todo' (S i) count record
                | S _ =>
                    narrow_loop self todo' (S i) (count + c)
                      (<[i := (mkr, field_data')]> record)
                end
            end
          else narrow_loop self todo' (S i) count record
      end
  end.

(** [self.apply_narrowly(record)]: the list object [record] after the
    call, and what the call returns ([record] itself, with the count) or
    raises. *)
Definition apply_narrowly (self : t) (record : list field)
  : list field * result nat :=
  if negb (narrow self) then (record, Raise WrongModeError_narrowly)
  else narrow_loop self (length record) 0 0 record.

End WithEngine.
Arguments t {_}.
End RegExpression.

(** The four scopes of the specification, read off the attributes of a
    rule.  The class has no attribute for a disabled rule. *)
Inductive Scope : Type :=
| Broad
| NarrowAllFields
| NarrowSpecificFields (fieldNames : list string).

Definition scope_of `{Regex} (r : RegExpression.t) : Scope :=
  if negb (RegExpression.narrow r) then Broad
  else if RegExpression._narrow_specific r
       then NarrowSpecificFields (RegExpression._fields r)
       else NarrowAllFields.

(** ** An engine for the worked examples

    On a non-empty pattern made of letters, digits and spaces a match is
    an occurrence of the pattern as a substring, and a replacement made of
    such characters is inserted as it stands; [subn] replaces the
    occurrences found from left to right, without overlap.  Other patterns
    and replacements are outside this instance, which rejects them; no
    statement below uses it on them. *)

Module LiteralRe.

Definition plain_char (c : ascii) : bool :=
  let n := nat_of_ascii c in
  (((48 <=? n) && (n <=? 57)) || ((65 <=? n) && (n <=? 90))
   || ((97 <=? n) && (n <=? 122)) || (n =? 32))%nat.

Fixpoint plain (s : string) : bool :=
  match s with
  | "" => true
  | String c s' => plain_char c && plain s'
  end.

Definition compile (find_this : string) : option string :=
  if plain find_this && negb (bool_decide (find_this = ""))
  then Some find_this else None.

(** [skip] counts the characters of the current match still to pass. *)
Fixpoint subn_from (pat repl : string) (skip : nat) (s : string)
  : string * nat :=
  match s with
  | "" => ("", 0)
  | String c s' =>
      match skip with
      | S k => subn_from pat repl k s'
      | 0 =>
          if PyStr.startswith s pat then
            let '(r, n) := subn_from pat repl (String.length pat - 1) s' in
            (repl +:+ r, S n)
          else
            let '(r, n) := subn_from pat repl 0 s' in
            (String c r, n)
      end
  end.

Definition subn (pat repl s : string) : option (string * nat) :=
  if plain repl then Some (subn_from pat repl 0 s) else None.

Definition engine : Regex :=
  {| Pattern := string; re_compile := compile; re_subn := subn |}.

End LiteralRe.

(** ** get_regexes *)

Section Parser.
Context `{Regex}.

(** [config.readline()] on the lines still to read: the next line, or
    the empty string at the end of the file. *)
Definition readline (config : list string) : string * list string :=
  match config with
  | [] => ("", [])
  | l :: rest => (l, rest)
  end.

(** The [while] loop of lines 164-169: read lines, counting them in
    [i], until one starts with [STOP_IGNORING] or [readline] returns the
    empty string. *)
Fixpoint skip_comments (config : list string) (i : nat) : list string * nat :=
  match config with
  | [] => ([], S i)
  | data :: rest =>
      if negb (bool_decide (data = "")) && PyStr.startswith data STOP_IGNORING
      then (rest, S i)
      else if bool_decide (data = "") then (rest, S i)
      else skip_comments rest (S i)
  end.

(** The local variables of the [for] loop of lines 180-208. *)
Record vars : Type := Vars {
  find_this : option string;
  replace_with : option string;
  scope : option string;
  state : nat;
  regexes : list RegExpression.t;
  i : nat
}.

Definition desc_error (i : nat) : exn :=
  Exception ("Config ERROR near line " +:+ pretty i
    +:+ ": Each regex needs to begin with at least one description line beginning with "
    +:+ REGEX_DESC +:+ ".").

Definition incomplete_error (i : nat) : exn :=
  Exception ("Config ERROR near line " +:+ pretty i
    +:+ ": Incomplete set of info for the regular expression at the end of the regex file.").

Definition no_regex_error : exn :=
  Exception ("Config ERROR: Please close the initial comments with a line beginning with "
    +:+ STOP_IGNORING
    +:+ " and after that provide at least one enabled regular expression.").

(** The test of line 202 *)
Definition is_disabled (scope : string) : bool :=
  PyStr.startswith (PyStr.lower scope) (PyStr.lower DISABLED).

(** One turn of the [for] loop on [line]. *)
Definition step (v : vars) (line : string) : result vars :=
  let i := S (i v) in
  let line := PyStr.rstrip_of PyStr.is_crlf line in
  match state v with
  | 0 =>
      let line := PyStr.rstrip line in
      if bool_decide (line = "") then
        Ok (Vars (find_this v) (replace_with v) (scope v) 0 (regexes v) i)
      else if PyStr.startswith line REGEX_DESC then
        Ok (Vars (find_this v) (replace_with v) (scope v) 1 (regexes v) i)
      else Raise (desc_error i)
  | 1 =>
      if negb (PyStr.startswith line REGEX_DESC) then
        Ok (Vars (find_this v) (replace_with v) (Some line) 2 (regexes v) i)
      else
        Ok (Vars (find_this v) (replace_with v) (scope v) 1 (regexes v) i)
  | 2 =>
      Ok (Vars (Some line) (replace_with v) (scope v) 3 (regexes v) i)
  | 3 =>
      match scope v with
      | None => Raise AttributeError
      | Some sc =>
          if is_disabled sc then
            Ok (Vars None None None 0 (regexes v) i)
          else
            match find_this v with
            | None => Raise TypeError
            | Some fnd =>
                r <-! RegExpression.__init__ fnd line sc ;;
                Ok (Vars None None None 0 (regexes v ++ [r]) i)
            end
      end
  | _ => Ok (Vars (find_this v) (replace_with v) (scope v) (state v) (regexes v) i)
  end.

(** The whole [for] loop. *)
Fixpoint for_lines (data : list string) (v : vars) : result vars :=
  match data with
  | [] => Ok v
  | line :: rest => v' <-! step v line ;; for_lines rest v'
  end.

(** Lines 209-213: the two checks made after the loop. *)
Definition finish (record_marker : string) (v : vars)
  : result (string * list RegExpression.t) :=
  if negb (bool_decide (state v = 0)) then Raise (incomplete_error (i v))
  else if bool_decide (length (regexes v) < 1) then Raise no_regex_error
  else Ok (record_marker, regexes v).

(** Line 175: the value to the right of the last colon. *)
Definition marker_of (tmp : string) : string :=
  if PyStr.contains PyStr.COLON tmp
  then PyStr.strip (List.last (PyStr.split PyStr.COLON tmp) "")
  else RECORD_MARKER.

(** Lines 162-178: what is read before the loop.  Gives the record
    marker, the lines left for the loop and the line counter. *)
Definition read_header (config : list string) : string * list string * nat :=
  let '(config, i) := skip_comments config 0 in
  let '(_, config) := readline config in
  let '(tmp, config) := readline config in
  (marker_of tmp, config, i + 3).

Definition init_vars (i : nat) : vars := Vars None None None 0 [] i.

(** [get_regexes] on the lines of the file. *)
Definition get_regexes_lines (config : list string)
  : result (string * list RegExpression.t) :=
  let '(record_marker, data, i) := read_header config in
  v <-! for_lines data (init_vars i) ;;
  finish record_marker v.

(** [get_regexes(fname)], given the text of the file named [fname] as
    the text stream presents it. *)
Definition get_regexes (text : string)
  : result (string * list RegExpression.t) :=
  get_regexes_lines (PyStr.lines text).

End Parser.

(** ** The narrow pass, field by field

    A second description of [apply_narrowly], by recursion on the record,
    against which the loop over indices is compared: each field in scope
    has the substitution applied to its content, and keeps its old content
    when nothing was replaced; the counts are added up; the first call the
    engine rejects ends the pass and leaves the later fields as they are. *)

Section FieldByField.
Context `{Regex}.
Import RegExpression.

Fixpoint narrow_fields (self : t) (record : list field)
  : list field * result nat :=
  match record with
  | [] => ([], Ok 0)
  | (mkr, field_data) :: rest =>
      if in_scope self mkr then
        match re_subn (_find self) (_replace self) field_data with
        | None => (record, Raise re_error)
        | Some (field_data', c) =>
            let '(rest', res) := narrow_fields self rest in
            ((mkr, match c with 0 => field_data | S _ => field_data' end) :: rest',
             n <-! res ;; Ok (c + n))
        end
      else
        let '(rest', res) := narrow_fields self rest in
        ((mkr, field_data) :: rest', res)
  end.

(** What a pass without exception makes of one field, and the number of
    replacements it counts there. *)
Definition narrow_field (self : t) (fld : field) : field :=
  if in_scope self fld.1 then
    match re_subn (_find self) (_replace self) fld.2 with
    | Some (field_data', S _) => (fld.1, field_data')
    | _ => fld
    end
  else fld.

Definition field_count (self : t) (fld : field) : nat :=
  if in_scope self fld.1 then
    match re_subn (_find self) (_replace self) fld.2 with
    | Some (_, c) => c
    | None => 0
    end
  else 0.

(** The engine raises on no field the rule reaches. *)
Definition engine_accepts (self : t) (record : list field) : Prop :=
  Forall (fun fld : field =>
            in_scope self fld.1 = true ->
            is_Some (re_subn (_find self) (_replace self) fld.2)) record.

End FieldByField.

(** ** The layout of a rule file

    The lines handed to the loop, described from the outside: blank lines
    and entries, an entry being one or more description lines, then a
    scope line, a find line and a replace line.  The parser is compared
    with this description below. *)

(** A line with its line end, as [readline] returns it before the end of
    the file. *)
Fixpoint complete_line (l : string) : bool :=
  match l with
  | "" => false
  | String c l' =>
      if bool_decide (c = PyStr.LF) then bool_decide (l' = "")
      else complete_line l'
  end.

(** [line.rstrip("\r\n")] *)
Definition chomp (line : string) : string :=
  PyStr.rstrip_of PyStr.is_crlf line.

Inductive item : Type :=
| Blank (line : string)
| Entry (desc : string) (more_desc : list string)
        (scope_line find_line replace_line : string).

Definition item_lines (it : item) : list string :=
  match it with
  | Blank line => [line]
  | Entry desc more_desc scope_line find_line replace_line =>
      desc :: more_desc ++ [scope_line; find_line; replace_line]
  end.

Definition items_lines (items : list item) : list string :=
  concat (item_lines <$> items).

Definition valid_item (it : item) : Prop :=
  match it with
  | Blank line => PyStr.rstrip (chomp line) = ""
  | Entry desc more_desc scope_line _ _ =>
      PyStr.startswith desc REGEX_DESC = true
      /\ Forall (fun l => PyStr.startswith l REGEX_DESC = true) more_desc
      /\ PyStr.startswith scope_line REGEX_DESC = false
  end.

(** The find text, the replace text and the scope label of an entry. *)
Definition item_entry (it : item) : option (string * string * string) :=
  match it with
  | Blank _ => None
  | Entry _ _ scope_line find_line replace_line =>
      Some (chomp find_line, chomp replace_line, chomp scope_line)
  end.

Definition entry_label (e : string * string * string) : string := e.2.

Section Layout.
Context `{Regex}.

Definition entry_enabled (e : string * string * string) : bool :=
  negb (is_disabled (entry_label e)).

(** The entries of the file that are not disabled, in the order of the
    file. *)
Definition enabled_entries (items : list item) : list (string * string * string) :=
  List.filter entry_enabled (omap item_entry items).

(** The rules constructed from a list of entries, in order; the first
    exception of the constructor ends the construction. *)
Fixpoint build_all (es : list (string * string * string))
  : result (list RegExpression.t) :=
  match es with
  | [] => Ok []
  | (fnd, rw, sc) :: es' =>
      r <-! RegExpression.__init__ fnd rw sc ;;
      rs <-! build_all es' ;;
      Ok (r :: rs)
  end.

(** The variables of the loop between two entries. *)
Definition idle (rs : list RegExpression.t) (i : nat) : vars :=
  Vars None None None 0 rs i.

End Layout.

(** An entry whose scope label carries the disabled mark. *)
Definition item_disabled (it : item) : bool :=
  match item_entry it with
  | Some e => is_disabled (entry_label e)
  | None => false
  end.

(** ** Sample rule files

    Used by the worked examples below.  [sample_rules] has one narrow
    entry, one disabled entry whose find text the engine of the examples
    rejects, and one broad entry; the other files are cut from it. *)

Definition line (s : string) : string := s +:+ PyStr.nl.

Definition sample_header : list string :=
  [line "{{ rules for the lexicon"; line "}} end of comments"; line "";
   line "record marker: lx "].

Definition sample_narrow : list string :=
  [line "## capitals in definitions"; line "## and subentries";
   line "sfmval: de se"; line "eeh"; line "EEH"].

Definition sample_disabled : list string :=
  [line "## switched off"; line "DISABLED-xyz"; line "((("; line "x"].

Definition sample_broad : list string :=
  [line ""; line "## cats to dogs"; line "Broad"; line "cat"; line "dog"].

Definition sample_rules : string :=
  PyStr.join (sample_header ++ sample_narrow ++ sample_disabled ++ sample_broad).

Definition sample_without_disabled : string :=
  PyStr.join (sample_header ++ sample_narrow ++ sample_broad).

Definition sample_only_disabled : string :=
  PyStr.join (sample_header ++ sample_disabled).

Definition sample_no_replace_line : string :=
  PyStr.join (sample_header ++ sample_narrow
              ++ [line "## cats to dogs"; line "broad"; line "cat"]).

Definition sample_rule_narrow : RegExpression.t :=
  RegExpression.Build (H := LiteralRe.engine)
    "eeh" "eeh" "EEH" ["de"; "se"] true true.

Definition sample_rule_broad : RegExpression.t :=
  RegExpression.Build (H := LiteralRe.engine) "cat" "cat" "dog" [] false false.

(** ** ascii

    [unicodedata.normalize('NFKD', s)] is taken as a function from a text
    to the code points of its normal form, which can lie above U+00FF
    (combining marks); the rest of [ascii] is written out. *)

Module Console.

(** The code points of a text. *)
Definition code_points (s : string) : list N :=
  N_of_ascii <$> list_ascii_of_string s.

(** [s2.encode('ASCII', 'replace')], read back with [b.decode()]: a code
    point that ASCII lacks becomes a question mark. *)
Fixpoint encode_ASCII_replace (s2 : list N) : string :=
  match s2 with
  | [] => ""
  | cp :: s2' =>
      String (if (cp <? 128)%N then ascii_of_N cp else "?"%char)
             (encode_ASCII_replace s2')
  end.

(** All characters of the text are ASCII characters. *)
Fixpoint is_ASCII (s : string) : bool :=
  match s with
  | "" => true
  | String c s' => (N_of_ascii c <? 128)%N && is_ASCII s'
  end.

Section WithNormalize.
Variable normalize_NFKD : string -> list N.

(** [ascii(s)] *)
Definition ascii (s : string) : string :=
  let s2 := normalize_NFKD s in
  let b := encode_ASCII_replace s2 in
  let s3 := b in
  if negb (bool_decide (s3 = s)) then "~" +:+ s3 else s3.

End WithNormalize.
End Console.

(** ** print_joined and run_sample *)

Section Sample.
Context `{Regex}.

(** The text [print_joined] builds from a record before it prints it. *)
Fixpoint print_joined_text (record : list RegExpression.field) : string :=
  match record with
  | [] => ""
  | (mkr, field_data) :: rest =>
      ("\" +:+ mkr)
      +:+ ((if negb (PyStr.startswith field_data PyStr.nl) then " " else "")
           +:+ (field_data +:+ print_joined_text rest))
  end.

(** The loop of [run_sample] (lines 234-236) on the list object [record]:
    each narrow rule is applied in turn, the others are passed over.  The
    result is the record that is printed after the loop, or the exception
    that ends it. *)
Fixpoint run_sample_loop (regexes : list RegExpression.t)
    (record : list RegExpression.field) : result (list RegExpression.field) :=
  match regexes with
  | [] => Ok record
  | regex :: rest =>
      if RegExpression.narrow regex then
        match RegExpression.apply_narrowly regex record with
        | (record', Ok _count) => run_sample_loop rest record'
        | (_, Raise e) => Raise e
        end
      else run_sample_loop rest record
  end.

(** The canned record of [run_sample]. *)
Definition canned_record : list RegExpression.field :=
  [("lx", "bleeh" +:+ PyStr.nl +:+ PyStr.nl);
   ("de", "foo eeh" +:+ PyStr.nl);
   ("se", "yeeda" +:+ PyStr.nl);
   ("de", "beeh" +:+ PyStr.nl)].

(** [run_sample(regexes)], without what it prints: the record shown after
    the rules, or the exception. *)
Definition run_sample (regexes : list RegExpression.t)
  : result (list RegExpression.field) :=
  run_sample_loop regexes canned_record.

End Sample.

(** ** execute

    The files are a finite map from names to texts: opening a name the map
    lacks for reading raises [IOError], writing a name binds it to the
    text written.  The module [SFMTools] is not part of this file; what
    [execute] uses of it is the interface [SFMTools], and [None] stands
    for a failed import.  Timing and printing are left out. *)

Record SFMTools : Type := {
  (** [sfm.SFMRecordReader(data, record_marker).header] *)
  reader_header : string -> string -> string;
  (** the records the reader yields, each as the list [as_lists()] gives *)
  reader_records : string -> string -> list (list RegExpression.field);
  (** [sfm_record.as_string()] on a record whose list is now this one *)
  as_string : list RegExpression.field -> string
}.

(** The dictionary [get_args] returns. *)
Record Args : Type := {
  infile : string;
  outfile : string;
  regexfile : string;
  overwr : bool
}.

(** What a run can end with besides the exceptions of [exn]. *)
Inductive run_exn : Type :=
| Propagated (e : exn)
| IOError (fname : string)
| UnboundLocalError (name : string).

Inductive ran (A : Type) : Type :=
| Done (a : A)
| Failed (e : run_exn).
Arguments Done {A} a.
Arguments Failed {A} e.

Section Execute.
Context `{Regex}.

(** [get_regexes(fname)] on the files. *)
Definition get_regexes_file (fs : gmap string string) (fname : string)
  : ran (string * list RegExpression.t) :=
  match fs !! fname with
  | None => Failed (IOError fname)
  | Some text =>
      match get_regexes text with
      | Ok r => Done r
      | Raise e => Failed (Propagated e)
      end
  end.

(** Lines 247-249 *)
Definition some_narrow (regexes : list RegExpression.t) : bool :=
  existsb RegExpression.narrow regexes.

(** Lines 296-302: the loop over the records of the reader.  [data_out]
    is the content of the stream, [data] and [modcount] the variables of
    these names. *)
Fixpoint narrow_records (tools : SFMTools) (regex : RegExpression.t)
    (records : list (list RegExpression.field))
    (data_out data : string) (modcount : nat) : result (string * nat) :=
  match records with
  | [] => Ok (data, modcount)
  | L :: rest =>
      match RegExpression.apply_narrowly regex L with
      | (L', Ok count) =>
          let data_out := data_out +:+ as_string tools L' in
          narrow_records tools regex rest data_out data_out (modcount + count)
      | (_, Raise e) => Raise e
      end
  end.

(** Lines 272-305: the loop over the rules, on the variables [data] and
    [modcounttotal]. *)
Fixpoint apply_regexes (sfm : option SFMTools) (record_marker : string)
    (regexes : list RegExpression.t) (data : string) (modcounttotal : nat)
  : ran (string * nat) :=
  match regexes with
  | [] => Done (data, modcounttotal)
  | regex :: rest =>
      if negb (RegExpression.narrow regex) then
        match RegExpression.apply regex data with
        | Ok (data', count) =>
            apply_regexes sfm record_marker rest data' (modcounttotal + (0 + count))
        | Raise e => Failed (Propagated e)
        end
      else
        match sfm with
        | None => Failed (UnboundLocalError "sfm")
        | Some tools =>
            match narrow_records tools regex
                    (reader_records tools data record_marker)
                    ("" +:+ reader_header tools data record_marker) data 0 with
            | Ok (data', modcount) =>
                apply_regexes sfm record_marker rest data' (modcounttotal + modcount)
            | Raise e => Failed (Propagated e)
            end
        end
  end.

(** [execute(args)]: the files after the run, and how the run ends. *)
Definition execute (args : Args) (sfm : option SFMTools)
    (fs : gmap string string) : gmap string string * ran unit :=
  match get_regexes_file fs (regexfile args) with
  | Failed e => (fs, Failed e)
  | Done (record_marker, regexes) =>
      if negb (overwr args) && bool_decide (is_Some (fs !! outfile args)) then
        (fs, Failed (UnboundLocalError "modcounttotal"))
      else
        match fs !! infile args with
        | None => (fs, Failed (IOError (infile args)))
        | Some data =>
            let import_failed :=
              if some_narrow regexes then
                match sfm with
                | Some _ => None
                | None =>
                    match run_sample regexes with
                    | Ok _ => Some (Propagated (Exception "Aborted."))
                    | Raise e => Some (Propagated e)
                    end
                end
              else None in
            match import_failed with
            | Some e => (fs, Failed e)
            | None =>
                match apply_regexes sfm record_marker regexes data 0 with
                | Failed e => (fs, Failed e)
                | Done (data, _) => (<[outfile args := data]> fs, Done ())
                end
            end
        end
  end.

End Execute.

(** ** What a run computes

    The outcome of the loop over the rules, described from the outside,
    for comparison with [apply_regexes]. *)

Section Pipeline.
Context `{Regex}.

(** The text a list of rules applied broadly makes of a text, each rule
    working on what the one before it returned; [None] when the engine
    raises. *)
Fixpoint broad_pipeline (regexes : list RegExpression.t) (data : string)
  : option (string * nat) :=
  match regexes with
  | [] => Some (data, 0)
  | regex :: rest =>
      match re_subn (RegExpression._find regex) (RegExpression._replace regex) data with
      | None => None
      | Some (data', count) =>
          match broad_pipeline rest data' with
          | None => None
          | Some (out, total) => Some (out, count + total)
          end
      end
  end.

(** The document after a narrow rule has gone through the records of the
    reader: the header and the records written back, or the document as
    it was when the reader found no record. *)
Definition narrowed_document (tools : SFMTools) (regex : RegExpression.t)
    (header : string) (records : list (list RegExpression.field))
    (data : string) : string :=
  match records with
  | [] => data
  | _ :: _ =>
      header +:+ PyStr.join ((fun L => as_string tools (narrow_field regex <$> L))
                             <$> records)
  end.

Definition narrowed_count (regex : RegExpression.t)
    (records : list (list RegExpression.field)) : nat :=
  sum_list ((fun L => sum_list (field_count regex <$> L)) <$> records).

End Pipeline.

(** * Properties *)

(** ** Strings *)

Section PyStrFacts.
Import PyStr.

Lemma startswith_spec (p s : string) :
  startswith s p = true <-> exists rest, s = p +:+ rest.
Proof.
  revert s. induction p as [|a p IH]; intros s; simpl.
  - split; [intros _; by exists s | done].
  - destruct s as [|b s]; simpl.
    + split; [done | intros [rest Hr]; discriminate].
    + rewrite andb_true_iff, bool_decide_eq_true, IH. split.
      * intros [-> [rest ->]]. by exists rest.
      * intros [rest Hr]. injection Hr as -> ->. eauto.
Qed.

Lemma startswith_app (p rest : string) : startswith (p +:+ rest) p = true.
Proof. apply startswith_spec. by exists rest. Qed.

Lemma split_nonempty (sep : ascii) (s : string) : split sep s <> [].
Proof.
  induction s as [|c s IH]; simpl; [done |].
  case_bool_decide; [done |]. by destruct (split sep s).
Qed.

End PyStrFacts.

(** Turns a hypothesis [startswith f p = true], [p] a literal, into the
    shape of [f]. *)
Ltac starts_with_shape Hs :=
  let rest := fresh "rest" in
  let E := fresh "E" in
  apply startswith_spec in Hs; destruct Hs as [rest E]; simpl in E.

(** ** Construction of a rule *)

Section InitFacts.
Context `{Regex}.
Import PyStr RegExpression.

Lemma broad_not_narrow (f : string) :
  startswith f BROAD = true -> startswith f NARROW = false.
Proof. intros Hs. starts_with_shape Hs. by rewrite E. Qed.

Lemma disabled_not_broad (f : string) :
  startswith f DISABLED = true -> startswith f BROAD = false.
Proof. intros Hs. starts_with_shape Hs. by rewrite E. Qed.

Lemma disabled_not_narrow (f : string) :
  startswith f DISABLED = true -> startswith f NARROW = false.
Proof. intros Hs. starts_with_shape Hs. by rewrite E. Qed.

Lemma qualified_is_narrow (f : string) (c : ascii) :
  startswith f (NARROW +:+ String c "") = true -> startswith f NARROW = true.
Proof.
  intros Hs. starts_with_shape Hs. rewrite E.
  apply (startswith_app "sfmval").
Qed.

Lemma narrow_not_broad (f : string) :
  startswith f NARROW = true -> startswith f BROAD = false.
Proof. intros Hs. starts_with_shape Hs. by rewrite E. Qed.

Lemma init_broad find_this replace_with fields pat :
  re_compile find_this = Some pat ->
  startswith (lower fields) BROAD = true ->
  __init__ find_this replace_with fields
  = Ok (Build pat find_this replace_with [] false false).
Proof. intros Hc Hb. unfold __init__. by rewrite Hc, Hb. Qed.

Lemma init_specific find_this replace_with fields pat :
  re_compile find_this = Some pat ->
  startswith (lower fields) (NARROW +:+ ":") = true
  \/ startswith (lower fields) (NARROW +:+ " ") = true ->
  __init__ find_this replace_with fields
  = Ok (Build pat find_this replace_with (tail (split SP fields)) true true).
Proof.
  intros Hc Hq. unfold __init__. rewrite Hc.
  assert (startswith (lower fields) BROAD = false) as ->.
  { apply narrow_not_broad. destruct Hq as [Hq|Hq];
      by apply qualified_is_narrow in Hq. }
  by destruct Hq as [-> | ->]; rewrite ?orb_true_r.
Qed.

Lemma init_all_fields find_this replace_with fields pat :
  re_compile find_this = Some pat ->
  startswith (lower fields) NARROW_NON_SPECIFIC = true ->
  startswith (lower fields) (NARROW +:+ ":") = false ->
  startswith (lower fields) (NARROW +:+ " ") = false ->
  __init__ find_this replace_with fields
  = Ok (Build pat find_this replace_with [] true false).
Proof.
  intros Hc Hn Hq1 Hq2. unfold __init__.
  rewrite Hc, Hq1, Hq2, Hn. by rewrite (narrow_not_broad _ Hn).
Qed.

Lemma init_invalid find_this replace_with fields pat :
  re_compile find_this = Some pat ->
  startswith (lower fields) BROAD = false ->
  startswith (lower fields) NARROW = false ->
  __init__ find_this replace_with fields = Raise (InvalidScopeError fields).
Proof.
  intros Hc Hb Hn. unfold __init__. rewrite Hc, Hb.
  assert (startswith (lower fields) (NARROW +:+ ":") = false) as ->.
  { destruct (startswith _ (NARROW +:+ ":")) eqn:E; [|done].
    apply qualified_is_narrow in E. congruence. }
  assert (startswith (lower fields) (NARROW +:+ " ") = false) as ->.
  { destruct (startswith _ (NARROW +:+ " ")) eqn:E; [|done].
    apply qualified_is_narrow in E. congruence. }
  unfold NARROW_NON_SPECIFIC. unfold NARROW in Hn. by rewrite Hn.
Qed.

Lemma init_bad_pattern find_this replace_with fields :
  re_compile find_this = None ->
  __init__ find_this replace_with fields = Raise re_error.
Proof. intros Hc. unfold __init__. by rewrite Hc. Qed.

End InitFacts.

(** C1.  Given a find pattern the engine compiles, the constructor
    classifies the scope label by a prefix test on the lower-cased label,
    in this order: a label starting with "broad" gives a Broad rule; one
    starting with "sfmval:" or "sfmval " gives a NarrowSpecificFields rule
    whose field names are the pieces of the original label between spaces,
    the first piece left out; one starting with "sfmval" without such a
    qualifier gives a NarrowAllFields rule; any other label raises the
    invalid-scope exception, whose message ends with the label. *)
Theorem C1_scope_classification `{Regex}
    (find_this replace_with fields : string) (pat : Pattern) :
  re_compile find_this = Some pat ->
  let f := PyStr.lower fields in
  let made (r : RegExpression.t) (sc : Scope) :=
    RegExpression.__init__ find_this replace_with fields = Ok r
    /\ RegExpression._find r = pat
    /\ RegExpression._findstr r = find_this
    /\ RegExpression._replace r = replace_with
    /\ scope_of r = sc in
  (PyStr.startswith f "broad" = true -> exists r, made r Broad)
  /\ (PyStr.startswith f "sfmval:" = true \/ PyStr.startswith f "sfmval " = true ->
      exists r, made r (NarrowSpecificFields (tail (PyStr.split " " fields))))
  /\ (PyStr.startswith f "sfmval" = true ->
      PyStr.startswith f "sfmval:" = false ->
      PyStr.startswith f "sfmval " = false ->
      exists r, made r NarrowAllFields)
  /\ (PyStr.startswith f "broad" = false ->
      PyStr.startswith f "sfmval" = false ->
      RegExpression.__init__ find_this replace_with fields
      = Raise (Exception ("Invalid regex scope label: " +:+ fields))).
Proof.
  intros Hc f made. subst f made. repeat split.
  - intros Hb. eexists. rewrite (init_broad _ _ _ _ Hc Hb). by repeat split.
  - intros Hq. eexists. rewrite (init_specific _ _ _ _ Hc Hq). by repeat split.
  - intros Hn Hq1 Hq2. eexists.
    rewrite (init_all_fields _ _ _ _ Hc Hn Hq1 Hq2). by repeat split.
  - intros Hb Hn. apply (init_invalid _ _ _ _ Hc Hb Hn).
Qed.

(** The labels of the specification's examples, on the engine of the
    worked examples. *)
Lemma C1_scope_classification_witness :
  (exists r, RegExpression.__init__ (H := LiteralRe.engine) "eeh" "EEH" "broad" = Ok r
             /\ scope_of r = Broad)
  /\ (exists r, RegExpression.__init__ (H := LiteralRe.engine) "eeh" "EEH" "sfmval: de se" = Ok r
                /\ scope_of r = NarrowSpecificFields ["de"; "se"])
  /\ (exists r, RegExpression.__init__ (H := LiteralRe.engine) "eeh" "EEH" "sfmval" = Ok r
                /\ scope_of r = NarrowAllFields)
  /\ RegExpression.__init__ (H := LiteralRe.engine) "eeh" "EEH" "weird"
     = Raise (Exception "Invalid regex scope label: weird").
Proof.
  pose proof (fun fields =>
    C1_scope_classification (H := LiteralRe.engine) "eeh" "EEH" fields "eeh" eq_refl)
    as C.
  split; [|split; [|split]].
  - destruct (C "broad") as (Hb & _). destruct (Hb eq_refl) as (r & Hr & _ & _ & _ & Hs).
    by exists r.
  - destruct (C "sfmval: de se") as (_ & Hq & _).
    destruct (Hq (or_introl eq_refl)) as (r & Hr & _ & _ & _ & Hs). by exists r.
  - destruct (C "sfmval") as (_ & _ & Hn & _).
    destruct (Hn eq_refl eq_refl eq_refl) as (r & Hr & _ & _ & _ & Hs). by exists r.
  - destruct (C "weird") as (_ & _ & _ & Hw). exact (Hw eq_refl eq_refl).
Defined.

(** C2, the claim as stated fails: on the label "DISABLED-xyz" the
    constructor builds no rule at all and raises the invalid-scope
    exception. *)
Lemma C2_disabled_label_counterexample :
  RegExpression.__init__ (H := LiteralRe.engine) "cat" "dog" "DISABLED-xyz"
  = Raise (InvalidScopeError "DISABLED-xyz")
  /\ ~ (exists r, RegExpression.__init__ (H := LiteralRe.engine) "cat" "dog" "DISABLED-xyz"
                  = Ok r).
Proof. split; [reflexivity | intros [r Hr]; discriminate]. Qed.

(** C2, amended.  The constructor knows no Disabled category: given a
    find pattern the engine compiles, every label that starts with
    "disable", in any casing and with any suffix, matches none of its three
    prefixes and raises the invalid-scope exception carrying the label. *)
Theorem C2_disabled_label_is_invalid `{Regex}
    (find_this replace_with fields : string) (pat : Pattern) :
  re_compile find_this = Some pat ->
  PyStr.startswith (PyStr.lower fields) "disable" = true ->
  RegExpression.__init__ find_this replace_with fields
  = Raise (Exception ("Invalid regex scope label: " +:+ fields)).
Proof.
  intros Hc Hd. apply (init_invalid _ _ _ _ Hc).
  - by apply disabled_not_broad.
  - by apply disabled_not_narrow.
Qed.

Lemma C2_disabled_label_is_invalid_witness :
  RegExpression.__init__ (H := LiteralRe.engine) "cat" "dog" "Disabled"
  = Raise (Exception "Invalid regex scope label: Disabled").
Proof.
  exact (C2_disabled_label_is_invalid (H := LiteralRe.engine)
           "cat" "dog" "Disabled" "cat" eq_refl eq_refl).
Defined.

(** ** Application of a rule *)

Section ApplyFacts.
Context `{Regex}.
Import RegExpression.

Lemma rbind_add_0 (res : result nat) : (n <-! res ;; Ok (0 + n)) = res.
Proof. by destruct res. Qed.

(** The loop over indices, started at [i] with [todo] fields left, does to
    the fields from [i] on what [narrow_fields] does, and leaves those
    before [i] alone. *)
Lemma narrow_loop_fields (self : t) (todo i count : nat) (record : list field) :
  length record = i + todo ->
  narrow_loop self todo i count record
  = let '(rest', res) := narrow_fields self (drop i record) in
    ((take i record ++ rest')%list, n <-! res ;; Ok (count + n)).
Proof.
  revert i count record.
  induction todo as [|todo IH]; intros i count record Hlen; cbn [narrow_loop].
  - rewrite drop_ge, take_ge by lia. simpl.
    by rewrite app_nil_r, Nat.add_0_r.
  - destruct (lookup_lt_is_Some_2 record i) as [[mkr field_data] Hi]; [lia|].
    rewrite Hi, (drop_S _ _ _ Hi). cbn [narrow_fields].
    destruct (narrow_fields self (drop (S i) record)) as [rest' res] eqn:Hrest.
    assert (IHsame : narrow_loop self todo (S i) count record
                     = ((take i record ++ (mkr, field_data) :: rest')%list,
                        n <-! res ;; Ok (count + n))).
    { rewrite IH, Hrest by lia.
      by rewrite (take_S_r _ _ _ Hi), <- app_assoc. }
    destruct (in_scope self mkr); [|done].
    destruct (re_subn _ _ field_data) as [[field_data' c]|].
    + destruct c as [|c].
      * rewrite IHsame. by destruct res.
      * rewrite IH by (rewrite length_insert; lia).
        rewrite drop_insert_lt, Hrest by lia.
        rewrite (take_S_r _ _ (mkr, field_data')), take_insert_ge by
          (try apply list_lookup_insert_eq; lia).
        rewrite <- app_assoc. simpl.
        destruct res as [n|e]; simpl; [|done].
        do 2 f_equal. lia.
    + by rewrite take_drop_middle.
Qed.

(** On a narrow rule [apply_narrowly] is [narrow_fields]. *)
Lemma apply_narrowly_fields (self : t) (record : list field) :
  narrow self = true ->
  apply_narrowly self record = narrow_fields self record.
Proof.
  intros Hn. unfold apply_narrowly. rewrite Hn. simpl.
  rewrite narrow_loop_fields by lia. rewrite drop_0. simpl.
  destruct (narrow_fields self record) as [rest' res].
  by rewrite rbind_add_0.
Qed.

Lemma narrow_fields_markers (self : t) (record : list field) :
  (narrow_fields self record).1.*1 = record.*1.
Proof.
  induction record as [|[mkr field_data] rest IH]; [done|].
  cbn [narrow_fields].
  destruct (narrow_fields self rest) as [rest' res]. simpl in IH.
  destruct (in_scope self mkr).
  - destruct (re_subn _ _ field_data) as [[field_data' c]|]; [|done].
    cbn. by f_equal.
  - cbn. by f_equal.
Qed.

Lemma narrow_fields_out_of_scope (self : t) (record : list field) i mkr field_data :
  record !! i = Some (mkr, field_data) ->
  in_scope self mkr = false ->
  (narrow_fields self record).1 !! i = Some (mkr, field_data).
Proof.
  revert i. induction record as [|[m d] rest IH]; intros i Hi Hout; [done|].
  cbn [narrow_fields].
  destruct (narrow_fields self rest) as [rest' res]. simpl in IH.
  destruct i as [|i]; simpl in Hi.
  - injection Hi as -> ->. by rewrite Hout.
  - specialize (IH i Hi Hout).
    destruct (in_scope self m); [|done].
    by destruct (re_subn _ _ d) as [[d' c]|].
Qed.

Lemma narrow_fields_Ok (self : t) (record : list field) (count : nat) :
  (narrow_fields self record).2 = Ok count ->
  (narrow_fields self record).1 = narrow_field self <$> record
  /\ count = sum_list (field_count self <$> record).
Proof.
  revert count. induction record as [|[mkr field_data] rest IH]; intros count.
  - by intros [= <-].
  - cbn [narrow_fields fmap list_fmap sum_list sum_list_with].
    unfold narrow_field at 1, field_count at 1. cbn [fst snd].
    destruct (narrow_fields self rest) as [rest' res]. simpl in IH.
    destruct (in_scope self mkr).
    + destruct (re_subn _ _ field_data) as [[field_data' c]|]; [|done].
      destruct res as [n|e]; [|done]. cbn.
      intros [= <-]. destruct (IH n eq_refl) as [-> ->].
      by destruct c.
    + cbn. intros Hres. by destruct (IH count Hres) as [-> ->].
Qed.

Lemma narrow_fields_accepted (self : t) (record : list field) :
  engine_accepts self record ->
  exists count, (narrow_fields self record).2 = Ok count.
Proof.
  induction 1 as [|[mkr field_data] rest Hfld _ IH]; [by exists 0|].
  destruct IH as [n Hn]. cbn [narrow_fields]. simpl in Hfld.
  destruct (narrow_fields self rest) as [rest' res]. simpl in Hn. subst res.
  destruct (in_scope self mkr); [|by exists n].
  destruct (Hfld eq_refl) as [[field_data' c] ->]. by eexists.
Qed.
End ApplyFacts.

Section ScopeFacts.
Context `{Regex}.
Import RegExpression.

Lemma scope_of_Broad (self : t) : scope_of self = Broad <-> narrow self = false.
Proof.
  unfold scope_of. destruct (narrow self), (_narrow_specific self); naive_solver.
Qed.

Lemma in_scope_all_fields (self : t) (mkr : string) :
  scope_of self = NarrowAllFields -> in_scope self mkr = true.
Proof.
  unfold scope_of, in_scope.
  by destruct (narrow self), (_narrow_specific self).
Qed.

Lemma in_scope_specific (self : t) (names : list string) (mkr : string) :
  scope_of self = NarrowSpecificFields names ->
  in_scope self mkr = true <-> mkr ∈ names.
Proof.
  unfold scope_of, in_scope.
  destruct (narrow self), (_narrow_specific self); simpl; try done.
  intros [= <-]. apply bool_decide_eq_true.
Qed.

End ScopeFacts.

(** C3.  On a narrow rule [apply_narrowly] goes through the fields of the
    record in order and hands to the engine the content of the fields the
    scope selects: all of them for NarrowAllFields, those whose marker is
    among the field names for NarrowSpecificFields.  No marker changes, a
    field out of scope keeps its content, and when the call returns, each
    selected field holds the substituted content if something was replaced
    there and its old content otherwise, and the count returned is the sum
    of the replacements over the selected fields; the call returns whenever
    the engine raises on none of them.  In particular the rule built from
    "eeh", "EEH" and the label "sfmval: de" turns the record
    [("lx","bleeh\n\n"),("de","foo eeh\n")] into
    [("lx","bleeh\n\n"),("de","foo EEH\n")] with count 1, for every engine
    that answers ("foo EEH\n", 1) on the content of the de field. *)
Theorem C3_apply_narrowly `{Regex} :
  (forall (self : RegExpression.t) (record : list RegExpression.field),
      RegExpression.narrow self = true ->
      let after := (RegExpression.apply_narrowly self record).1 in
      let outcome := (RegExpression.apply_narrowly self record).2 in
      RegExpression.apply_narrowly self record = narrow_fields self record
      /\ after.*1 = record.*1
      /\ (scope_of self = NarrowAllFields \/
          exists names, scope_of self = NarrowSpecificFields names
                        /\ forall mkr, RegExpression.in_scope self mkr = true <-> mkr ∈ names)
      /\ (scope_of self = NarrowAllFields ->
          forall mkr, RegExpression.in_scope self mkr = true)
      /\ (forall i mkr field_data,
             record !! i = Some (mkr, field_data) ->
             RegExpression.in_scope self mkr = false ->
             after !! i = Some (mkr, field_data))
      /\ (forall count,
             outcome = Ok count ->
             after = narrow_field self <$> record
             /\ count = sum_list (field_count self <$> record))
      /\ (engine_accepts self record -> exists count, outcome = Ok count))
  /\ (forall pat : Pattern,
         re_compile "eeh" = Some pat ->
         re_subn pat "EEH" ("foo eeh" +:+ PyStr.nl) = Some ("foo EEH" +:+ PyStr.nl, 1) ->
         exists r,
           RegExpression.__init__ "eeh" "EEH" "sfmval: de" = Ok r
           /\ scope_of r = NarrowSpecificFields ["de"]
           /\ RegExpression.apply_narrowly r
                [("lx", "bleeh" +:+ PyStr.nl +:+ PyStr.nl); ("de", "foo eeh" +:+ PyStr.nl)]
              = ([("lx", "bleeh" +:+ PyStr.nl +:+ PyStr.nl); ("de", "foo EEH" +:+ PyStr.nl)],
                 Ok 1)).
Proof.
  split.
  - intros self record Hn after outcome. subst after outcome.
    rewrite (apply_narrowly_fields self record Hn).
    split; [done|]. split; [apply narrow_fields_markers|].
    split.
    { unfold scope_of. rewrite Hn. simpl.
      destruct (RegExpression._narrow_specific self) eqn:Hs; [right | by left].
      eexists. split; [done|]. intros mkr.
      apply in_scope_specific. unfold scope_of. by rewrite Hn, Hs. }
    split; [intros Hs mkr; by apply in_scope_all_fields|].
    split; [apply narrow_fields_out_of_scope|].
    split; [apply narrow_fields_Ok | apply narrow_fields_accepted].
  - intros pat Hc Hs.
    eexists. split; [by apply init_specific; [|left]|]. split; [done|].
    unfold RegExpression.apply_narrowly. simpl in *. by rewrite Hs.
Qed.

Lemma C3_apply_narrowly_witness :
  let self := RegExpression.Build (H := LiteralRe.engine)
                "eeh" "eeh" "EEH" ["de"] true true in
  let record := [("lx", "bleeh" +:+ PyStr.nl +:+ PyStr.nl);
                 ("de", "foo eeh" +:+ PyStr.nl);
                 ("se", "yeeda" +:+ PyStr.nl);
                 ("de", "beeh" +:+ PyStr.nl)] in
  RegExpression.narrow self = true
  /\ RegExpression.apply_narrowly self record
     = ([("lx", "bleeh" +:+ PyStr.nl +:+ PyStr.nl);
         ("de", "foo EEH" +:+ PyStr.nl);
         ("se", "yeeda" +:+ PyStr.nl);
         ("de", "bEEH" +:+ PyStr.nl)], Ok 2).
Proof.
  intros self record. split; [reflexivity|].
  destruct (proj1 (C3_apply_narrowly (H := LiteralRe.engine)) self record eq_refl)
    as (-> & _).
  reflexivity.
Defined.

(** C4.  On a Broad rule [apply] hands the whole text to the engine for a
    substitution of every match and returns the engine's pair of the new
    text and the number of replacements (the engine's exception when it
    raises).  In particular the rule built from "cat", "dog" and the label
    "broad" returns ("dog sat", 1) on "cat sat", for every engine that
    gives this answer for the pattern "cat". *)
Theorem C4_apply_broad `{Regex} :
  (forall (self : RegExpression.t) (text : string),
      RegExpression.narrow self = false ->
      scope_of self = Broad
      /\ RegExpression.apply self text
         = match re_subn (RegExpression._find self) (RegExpression._replace self) text with
           | Some (newText, replacementCount) => Ok (newText, replacementCount)
           | None => Raise re_error
           end)
  /\ (forall pat : Pattern,
         re_compile "cat" = Some pat ->
         re_subn pat "dog" "cat sat" = Some ("dog sat", 1) ->
         exists r,
           RegExpression.__init__ "cat" "dog" "broad" = Ok r
           /\ scope_of r = Broad
           /\ RegExpression.apply r "cat sat" = Ok ("dog sat", 1)).
Proof.
  split.
  - intros self text Hn. split; [by apply scope_of_Broad|].
    unfold RegExpression.apply. rewrite Hn.
    by destruct (re_subn _ _ text) as [[newText n]|].
  - intros pat Hc Hs.
    eexists. split; [by apply init_broad|]. split; [done|].
    unfold RegExpression.apply. simpl. by rewrite Hs.
Qed.

Lemma C4_apply_broad_witness :
  let self := RegExpression.Build (H := LiteralRe.engine)
                "cat" "cat" "dog" [] false false in
  RegExpression.narrow self = false
  /\ RegExpression.apply self "cat sat" = Ok ("dog sat", 1).
Proof.
  intros self. split; [reflexivity|].
  destruct (proj1 (C4_apply_broad (H := LiteralRe.engine)) self "cat sat" eq_refl)
    as (_ & ->).
  reflexivity.
Defined.

(** C5.  [apply] on a narrow rule and [apply_narrowly] on a broad rule
    raise the wrong-mode exception: the first returns no text, the second
    raises before it reads the record, whose content after the call is the
    content before it. *)
Theorem C5_wrong_mode `{Regex}
    (narrow_rule broad_rule : RegExpression.t)
    (text : string) (record : list RegExpression.field) :
  RegExpression.narrow narrow_rule = true ->
  RegExpression.narrow broad_rule = false ->
  (exists e, RegExpression.apply narrow_rule text = Raise e
             /\ e = Exception "This regex is not intended to be applied broadly to the whole file."
             /\ is_WrongModeError e)
  /\ (exists e, RegExpression.apply_narrowly broad_rule record = (record, Raise e)
                /\ e = Exception "This regex is intended to be applied broadly to the whole file, NOT narrowly."
                /\ is_WrongModeError e).
Proof.
  intros Hn Hb. split; eexists.
  - unfold RegExpression.apply. rewrite Hn. split; [done|]. split; [done|]. by left.
  - unfold RegExpression.apply_narrowly. rewrite Hb. simpl.
    split; [done|]. split; [done|]. by right.
Qed.

Lemma C5_wrong_mode_witness :
  let narrow_rule := RegExpression.Build (H := LiteralRe.engine)
                       "eeh" "eeh" "EEH" [] true false in
  let broad_rule := RegExpression.Build (H := LiteralRe.engine)
                      "eeh" "eeh" "EEH" [] false false in
  RegExpression.apply narrow_rule "bleeh" = Raise WrongModeError_broadly
  /\ RegExpression.apply_narrowly broad_rule [("lx", "bleeh")]
     = ([("lx", "bleeh")], Raise WrongModeError_narrowly).
Proof.
  intros narrow_rule broad_rule.
  destruct (C5_wrong_mode (H := LiteralRe.engine) narrow_rule broad_rule
              "bleeh" [("lx", "bleeh")] eq_refl eq_refl)
    as ((e1 & -> & -> & _) & (e2 & -> & -> & _)).
  split; reflexivity.
Defined.

(** C10.  For a label with the "sfmval:" or "sfmval " prefix in any casing
    the field names stored in the rule are cut from the label as it was
    given, not from its lower-cased copy, and a marker is selected when it
    equals one of them character for character; a field whose marker is not
    among them keeps its content.  So the rule built from the label
    "sfmval: DE" stores the one name "DE" and never changes a field marked
    "de". *)
Theorem C10_field_names_keep_case `{Regex}
    (find_this replace_with : string) (pat : Pattern) :
  re_compile find_this = Some pat ->
  (forall fields : string,
      PyStr.startswith (PyStr.lower fields) "sfmval:" = true
      \/ PyStr.startswith (PyStr.lower fields) "sfmval " = true ->
      exists r,
        RegExpression.__init__ find_this replace_with fields = Ok r
        /\ RegExpression._fields r = tail (PyStr.split " " fields)
        /\ (forall mkr, RegExpression.in_scope r mkr = true
                        <-> mkr ∈ tail (PyStr.split " " fields))
        /\ (forall (record : list RegExpression.field) i mkr field_data,
               record !! i = Some (mkr, field_data) ->
               mkr ∉ tail (PyStr.split " " fields) ->
               (RegExpression.apply_narrowly r record).1 !! i = Some (mkr, field_data)))
  /\ (exists r,
         RegExpression.__init__ find_this replace_with "sfmval: DE" = Ok r
         /\ RegExpression._fields r = ["DE"]
         /\ RegExpression.in_scope r "de" = false
         /\ (forall (record : list RegExpression.field) i field_data,
                record !! i = Some ("de", field_data) ->
                (RegExpression.apply_narrowly r record).1 !! i = Some ("de", field_data))).
Proof.
  intros Hc.
  assert (Hgen : forall fields : string,
      PyStr.startswith (PyStr.lower fields) "sfmval:" = true
      \/ PyStr.startswith (PyStr.lower fields) "sfmval " = true ->
      exists r,
        RegExpression.__init__ find_this replace_with fields = Ok r
        /\ RegExpression._fields r = tail (PyStr.split " " fields)
        /\ (forall mkr, RegExpression.in_scope r mkr = true
                        <-> mkr ∈ tail (PyStr.split " " fields))
        /\ (forall (record : list RegExpression.field) i mkr field_data,
               record !! i = Some (mkr, field_data) ->
               mkr ∉ tail (PyStr.split " " fields) ->
               (RegExpression.apply_narrowly r record).1 !! i = Some (mkr, field_data))).
  { intros fields Hq. eexists.
    split; [by apply init_specific|]. split; [done|].
    assert (Hin : forall mkr,
               RegExpression.in_scope
                 (RegExpression.Build pat find_this replace_with
                    (tail (PyStr.split " " fields)) true true) mkr = true
               <-> mkr ∈ tail (PyStr.split " " fields)).
    { intros mkr. by apply in_scope_specific. }
    split; [done|].
    intros record i mkr field_data Hi Hout.
    rewrite apply_narrowly_fields by done.
    apply narrow_fields_out_of_scope; [done|].
    apply not_true_is_false. by rewrite Hin. }
  split; [done|].
  destruct (Hgen "sfmval: DE" (or_introl eq_refl)) as (r & Hr & Hf & Hin & Hkeep).
  exists r. split; [done|]. split; [done|].
  assert (Hde : "de" ∉ tail (PyStr.split " " "sfmval: DE")).
  { simpl. intros Hde. apply list_elem_of_singleton in Hde. discriminate. }
  split; [apply not_true_is_false; by rewrite Hin|].
  intros record i field_data Hi. by apply Hkeep.
Qed.

Lemma C10_field_names_keep_case_witness :
  exists r,
    RegExpression.__init__ (H := LiteralRe.engine) "eeh" "EEH" "sfmval: DE" = Ok r
    /\ RegExpression._fields r = ["DE"]
    /\ RegExpression.apply_narrowly r [("de", "foo eeh"); ("DE", "foo eeh")]
       = ([("de", "foo eeh"); ("DE", "foo EEH")], Ok 1).
Proof.
  destruct (C10_field_names_keep_case (H := LiteralRe.engine) "eeh" "EEH" "eeh" eq_refl)
    as (_ & r & Hr & Hf & _).
  exists r. split; [exact Hr|]. split; [exact Hf|].
  injection Hr as <-. reflexivity.
Defined.

(** ** The parser *)

Section StripFacts.
Import PyStr.

(** Stripping characters at the end of a line leaves a prefix alone when
    no character of the prefix is stripped. *)
Lemma rstrip_of_startswith (p : ascii -> bool) (q l : string) :
  (forall c, contains c q = true -> p c = false) ->
  startswith (rstrip_of p l) q = startswith l q.
Proof.
  revert l. induction q as [|a q IH]; intros l Hq; [done|].
  assert (Ha : p a = false).
  { apply Hq. simpl. by rewrite bool_decide_eq_true_2. }
  assert (Hq' : forall c, contains c q = true -> p c = false).
  { intros c Hc. apply Hq. simpl. by rewrite Hc, orb_true_r. }
  destruct l as [|b l]; [done|].
  specialize (IH l Hq'). cbn [rstrip_of].
  destruct (rstrip_of p l) as [|c r] eqn:Hr.
  - destruct (p b) eqn:Hb; cbn [startswith].
    + rewrite bool_decide_eq_false_2; [done | congruence].
    + by rewrite <- IH.
  - cbn [startswith]. by rewrite <- IH.
Qed.

Lemma chomp_desc (l : string) :
  startswith (chomp l) REGEX_DESC = startswith l REGEX_DESC.
Proof.
  apply rstrip_of_startswith. intros c Hc. simpl in Hc.
  rewrite orb_false_r in Hc. apply orb_true_iff in Hc.
  assert (c = "#"%char) as -> by (destruct Hc as [Hc|Hc]; by apply bool_decide_eq_true in Hc).
  done.
Qed.

Lemma rstrip_chomp_desc (l : string) :
  startswith (rstrip (chomp l)) REGEX_DESC = startswith l REGEX_DESC.
Proof.
  rewrite <- (chomp_desc l). apply rstrip_of_startswith. intros c Hc. simpl in Hc.
  rewrite orb_false_r in Hc. apply orb_true_iff in Hc.
  assert (c = "#"%char) as -> by (destruct Hc as [Hc|Hc]; by apply bool_decide_eq_true in Hc).
  done.
Qed.

End StripFacts.

Section StepFacts.
Context `{Regex}.
Import PyStr.

Local Abbreviation in_desc rs i := (Vars None None None 1 rs i).
Local Abbreviation at_find sc rs i := (Vars None None (Some sc) 2 rs i).
Local Abbreviation at_replace fnd sc rs i := (Vars (Some fnd) None (Some sc) 3 rs i).

Lemma desc_not_blank (l : string) :
  startswith l REGEX_DESC = true -> rstrip (chomp l) <> "".
Proof.
  intros Hd Hb. rewrite <- rstrip_chomp_desc in Hd. by rewrite Hb in Hd.
Qed.

Lemma step_blank rs i (l : string) :
  rstrip (chomp l) = "" -> step (idle rs i) l = Ok (idle rs (S i)).
Proof. intros Hb. unfold step, chomp in *. simpl. by rewrite Hb. Qed.

Lemma step_first_desc rs i (l : string) :
  startswith l REGEX_DESC = true -> step (idle rs i) l = Ok (in_desc rs (S i)).
Proof.
  intros Hd. pose proof (desc_not_blank l Hd) as Hb.
  unfold step. cbn [state idle]. fold (chomp l).
  rewrite bool_decide_eq_false_2 by done.
  by rewrite rstrip_chomp_desc, Hd.
Qed.

Lemma step_more_desc rs i (l : string) :
  startswith l REGEX_DESC = true -> step (in_desc rs i) l = Ok (in_desc rs (S i)).
Proof.
  intros Hd. unfold step. cbn [state]. fold (chomp l).
  by rewrite chomp_desc, Hd.
Qed.

Lemma step_scope rs i (l : string) :
  startswith l REGEX_DESC = false ->
  step (in_desc rs i) l = Ok (at_find (chomp l) rs (S i)).
Proof.
  intros Hd. unfold step. cbn [state]. fold (chomp l).
  by rewrite chomp_desc, Hd.
Qed.

Lemma step_find sc rs i (l : string) :
  step (at_find sc rs i) l = Ok (at_replace (chomp l) sc rs (S i)).
Proof. done. Qed.

Lemma step_replace fnd sc rs i (l : string) :
  step (at_replace fnd sc rs i) l
  = if is_disabled sc then Ok (idle rs (S i))
    else r <-! RegExpression.__init__ fnd (chomp l) sc ;;
         Ok (idle (rs ++ [r]) (S i)).
Proof. done. Qed.

Lemma for_lines_app (a b : list string) (v : vars) :
  for_lines (a ++ b) v = (v' <-! for_lines a v ;; for_lines b v').
Proof.
  revert v. induction a as [|l a IH]; intros v; simpl; [done|].
  destruct (step v l); simpl; [apply IH | done].
Qed.

Lemma for_lines_descs (ds rest : list string) rs i :
  Forall (fun l => startswith l REGEX_DESC = true) ds ->
  for_lines (ds ++ rest) (in_desc rs i)
  = for_lines rest (in_desc rs (i + length ds)).
Proof.
  intros Hds. revert i. induction Hds as [|d ds Hd _ IH]; intros i; simpl.
  - by rewrite Nat.add_0_r.
  - rewrite (step_more_desc _ _ _ Hd). simpl. rewrite IH.
    by replace (S i + length ds) with (i + S (length ds)) by lia.
Qed.

(** What the loop does with the lines of one item. *)
Lemma for_lines_item (it : item) (rest : list string) rs i :
  valid_item it ->
  for_lines (item_lines it ++ rest) (idle rs i)
  = match item_entry it with
    | None => for_lines rest (idle rs (i + length (item_lines it)))
    | Some e =>
        if entry_enabled e then
          r <-! RegExpression.__init__ e.1.1 e.1.2 e.2 ;;
          for_lines rest (idle (rs ++ [r]) (i + length (item_lines it)))
        else for_lines rest (idle rs (i + length (item_lines it)))
    end.
Proof.
  destruct it as [line | desc more_desc scope_line find_line replace_line].
  - intros Hb. simpl in *. rewrite (step_blank _ _ _ Hb). simpl.
    by rewrite Nat.add_1_r.
  - intros (Hd & Hds & Hs). cbn [item_lines item_entry app for_lines].
    rewrite (step_first_desc _ _ _ Hd). cbn [rbind].
    rewrite <- app_assoc, (for_lines_descs _ _ _ _ Hds).
    cbn [app for_lines]. rewrite (step_scope _ _ _ Hs). cbn [rbind].
    rewrite step_find. cbn [rbind]. rewrite step_replace.
    unfold entry_enabled, entry_label. cbn [fst snd length].
    rewrite length_app. cbn [length].
    replace (S (S (S (S i + length more_desc))))
      with (i + S (length more_desc + 3)) by lia.
    destruct (is_disabled (chomp scope_line)); cbn [negb rbind]; [done|].
    by destruct (RegExpression.__init__ _ _ _).
Qed.

Lemma enabled_entries_cons (it : item) (items : list item) :
  enabled_entries (it :: items)
  = match item_entry it with
    | None => enabled_entries items
    | Some e => if entry_enabled e then e :: enabled_entries items
                else enabled_entries items
    end.
Proof. unfold enabled_entries. simpl. by destruct (item_entry it). Qed.

(** The loop on a file laid out as items: the rules of the entries that
    are not disabled are constructed in order and appended. *)
Lemma for_lines_items (items : list item) (rest : list string) rs i :
  Forall valid_item items ->
  for_lines (items_lines items ++ rest) (idle rs i)
  = (rules <-! build_all (enabled_entries items) ;;
     for_lines rest (idle (rs ++ rules) (i + length (items_lines items)))).
Proof.
  intros Hv. revert rs i.
  induction Hv as [|it items Hit _ IH]; intros rs i.
  - simpl. by rewrite app_nil_r, Nat.add_0_r.
  - unfold items_lines. cbn [fmap list_fmap concat]. fold (items_lines items).
    rewrite <- app_assoc, (for_lines_item _ _ _ _ Hit), enabled_entries_cons.
    rewrite length_app, Nat.add_assoc.
    destruct (item_entry it) as [[[fnd rw] sc]|]; [|apply IH].
    destruct (entry_enabled (fnd, rw, sc)); [|apply IH].
    cbn [build_all fst snd].
    destruct (RegExpression.__init__ fnd rw sc) as [r|e]; cbn [rbind]; [|done].
    rewrite IH.
    destruct (build_all (enabled_entries items)) as [rules|e]; cbn [rbind]; [|done].
    by rewrite <- app_assoc.
Qed.

Lemma step_no_desc rs i (l : string) :
  rstrip (chomp l) <> "" ->
  startswith l REGEX_DESC = false ->
  step (idle rs i) l = Raise (desc_error (S i)).
Proof.
  intros Hb Hd. unfold step. cbn [state idle]. fold (chomp l).
  rewrite bool_decide_eq_false_2 by done.
  by rewrite rstrip_chomp_desc, Hd.
Qed.

(** Whatever the loop gets through and leaves between two entries is laid
    out as items; started inside an entry, it first needs the rest of that
    entry. *)
Lemma for_lines_layout (data : list string) :
  (forall rs i v,
      for_lines data (idle rs i) = Ok v -> state v = 0 ->
      exists items, data = items_lines items /\ Forall valid_item items)
  /\ (forall rs i v,
         for_lines data (in_desc rs i) = Ok v -> state v = 0 ->
         exists (ds : list string) (s f r : string) (items : list item),
           data = (ds ++ [s; f; r] ++ items_lines items)%list
           /\ Forall (fun l => startswith l REGEX_DESC = true) ds
           /\ startswith s REGEX_DESC = false
           /\ Forall valid_item items)
  /\ (forall sc rs i v,
         for_lines data (at_find sc rs i) = Ok v -> state v = 0 ->
         exists (f r : string) (items : list item),
           data = f :: r :: items_lines items /\ Forall valid_item items)
  /\ (forall fnd sc rs i v,
         for_lines data (at_replace fnd sc rs i) = Ok v -> state v = 0 ->
         exists (r : string) (items : list item),
           data = r :: items_lines items /\ Forall valid_item items).
Proof.
  induction data as [|l data (IH0 & IH1 & IH2 & IH3)].
  - repeat split; intros; simplify_eq/=. by exists [].
  - split; [|split; [|split]].
    + intros rs i v. cbn [for_lines].
      destruct (decide (rstrip (chomp l) = "")) as [Hb|Hb].
      * rewrite (step_blank _ _ _ Hb). cbn [rbind]. intros Hv Hs.
        destruct (IH0 _ _ _ Hv Hs) as (items & -> & Hitems).
        exists (Blank l :: items). split; [done|]. by constructor.
      * destruct (startswith l REGEX_DESC) eqn:Hd.
        -- rewrite (step_first_desc _ _ _ Hd). cbn [rbind]. intros Hv Hs.
           destruct (IH1 _ _ _ Hv Hs) as (ds & s & f & r & items & -> & Hds & Hsc & Hitems).
           exists (Entry l ds s f r :: items). split.
           ++ unfold items_lines. cbn [fmap list_fmap concat item_lines].
              simpl. f_equal. by rewrite <- (assoc_L (++)).
           ++ by constructor.
        -- by rewrite (step_no_desc _ _ _ Hb Hd).
    + intros rs i v. cbn [for_lines].
      destruct (startswith l REGEX_DESC) eqn:Hd.
      * rewrite (step_more_desc _ _ _ Hd). cbn [rbind]. intros Hv Hs.
        destruct (IH1 _ _ _ Hv Hs) as (ds & s & f & r & items & -> & Hds & Hsc & Hitems).
        exists (l :: ds), s, f, r, items. split; [done|]. by repeat constructor.
      * rewrite (step_scope _ _ _ Hd). cbn [rbind]. intros Hv Hs.
        destruct (IH2 _ _ _ _ Hv Hs) as (f & r & items & -> & Hitems).
        by exists [], l, f, r, items.
    + intros sc rs i v. cbn [for_lines]. rewrite step_find. cbn [rbind].
      intros Hv Hs. destruct (IH3 _ _ _ _ _ Hv Hs) as (r & items & -> & Hitems).
      by exists l, r, items.
    + intros fnd sc rs i v. cbn [for_lines]. rewrite step_replace.
      destruct (is_disabled sc).
      * cbn [rbind]. intros Hv Hs.
        destruct (IH0 _ _ _ Hv Hs) as (items & -> & Hitems). by exists l, items.
      * destruct (RegExpression.__init__ fnd (chomp l) sc) as [r|e]; cbn [rbind]; [|done].
        intros Hv Hs.
        destruct (IH0 _ _ _ Hv Hs) as (items & -> & Hitems). by exists l, items.
Qed.

End StepFacts.

Section LineFacts.
Import PyStr.

Lemma append_cons (c : ascii) (s1 s2 : string) :
  String c s1 +:+ s2 = String c (s1 +:+ s2).
Proof. reflexivity. Qed.

Lemma append_assoc (s1 s2 s3 : string) : (s1 +:+ s2) +:+ s3 = s1 +:+ (s2 +:+ s3).
Proof.
  induction s1 as [|c s1 IH]; [done|]. rewrite !append_cons. by f_equal.
Qed.

Lemma lines_nonempty (text : string) : Forall (fun l => l <> "") (lines text).
Proof.
  induction text as [|c text IH]; simpl; [constructor|].
  case_bool_decide; [by constructor|].
  destruct (lines text) as [|l ls]; [by repeat constructor|].
  apply Forall_cons in IH as [_ IH]. by constructor.
Qed.

Lemma complete_line_nonempty (l : string) : complete_line l = true -> l <> "".
Proof. by destruct l. Qed.

Lemma lines_complete (l rest : string) :
  complete_line l = true -> lines (l +:+ rest) = l :: lines rest.
Proof.
  induction l as [|c l IH]; [done|]. rewrite append_cons. simpl.
  case_bool_decide as Hc.
  - intros ->%bool_decide_eq_true. by subst c.
  - intros Hl. by rewrite (IH Hl).
Qed.

Lemma lines_join (ls : list string) (rest : string) :
  Forall (fun l => complete_line l = true) ls ->
  lines (join ls +:+ rest) = (ls ++ lines rest)%list.
Proof.
  induction 1 as [|l ls Hl _ IH]; simpl; [done|].
  by rewrite append_assoc, (lines_complete _ _ Hl), IH.
Qed.

Lemma contains_app (c : ascii) (s1 s2 : string) :
  contains c (s1 +:+ s2) = contains c s1 || contains c s2.
Proof.
  induction s1 as [|a s1 IH]; [done|].
  rewrite append_cons. simpl. by rewrite IH, orb_assoc.
Qed.

Lemma split_no_sep (sep : ascii) (s : string) :
  contains sep s = false -> split sep s = [s].
Proof.
  induction s as [|c s IH]; simpl; [done|].
  intros [Hc Hs]%orb_false_iff. rewrite Hc. by rewrite (IH Hs).
Qed.

Lemma split_app_sep (sep : ascii) (s1 s2 : string) :
  split sep (s1 +:+ String sep s2) = (split sep s1 ++ split sep s2)%list.
Proof.
  induction s1 as [|c s1 IH].
  - change ("" +:+ String sep s2) with (String sep s2). simpl.
    by rewrite bool_decide_eq_true_2.
  - rewrite append_cons. simpl. rewrite IH. case_bool_decide; [done|].
    pose proof (split_nonempty sep s1). by destruct (split sep s1).
Qed.

Lemma last_app_nonempty {A} (l1 l2 : list A) (d : A) :
  l2 <> [] -> List.last (l1 ++ l2) d = List.last l2 d.
Proof.
  intros Hl2. induction l1 as [|x l1 IH]; [done|].
  simpl. rewrite IH. destruct (l1 ++ l2)%list eqn:E; [|done].
  by apply app_eq_nil in E as [_ ?].
Qed.

(** The text after the last colon of a line *)
Lemma marker_of_colon (before after : string) :
  contains COLON after = false ->
  marker_of (before +:+ String COLON after) = strip after.
Proof.
  intros Hafter. unfold marker_of.
  rewrite contains_app. cbn [contains].
  rewrite bool_decide_eq_true_2, orb_true_r by done. cbn [orb].
  rewrite split_app_sep, last_app_nonempty by apply split_nonempty.
  by rewrite (split_no_sep _ _ Hafter).
Qed.

Lemma marker_of_no_colon (tmp : string) :
  contains COLON tmp = false -> marker_of tmp = RECORD_MARKER.
Proof. intros Hc. unfold marker_of. by rewrite Hc. Qed.

End LineFacts.

Section HeaderFacts.
Context `{Regex}.
Import PyStr.

Lemma startswith_nonempty (l p : string) :
  p <> "" -> startswith l p = true -> l <> "".
Proof. intros Hp Hl ->. by destruct p. Qed.

Lemma skip_comments_found (pre : list string) (stop : string) (rest : list string) i :
  Forall (fun l => l <> "" /\ startswith l STOP_IGNORING = false) pre ->
  startswith stop STOP_IGNORING = true ->
  skip_comments (pre ++ stop :: rest) i = (rest, i + length pre + 1).
Proof.
  intros Hpre Hstop. revert i.
  induction Hpre as [|l pre [Hl Hns] _ IH]; intros i; cbn [skip_comments app length].
  - rewrite Hstop.
    rewrite bool_decide_eq_false_2 by (by apply (startswith_nonempty _ STOP_IGNORING)).
    cbn. f_equal. lia.
  - rewrite Hns, andb_false_r, bool_decide_eq_false_2 by done.
    rewrite IH. f_equal. lia.
Qed.

Lemma skip_comments_none (config : list string) i :
  Forall (fun l => l <> "" /\ startswith l STOP_IGNORING = false) config ->
  skip_comments config i = ([], i + length config + 1).
Proof.
  intros Hc. revert i.
  induction Hc as [|l config [Hl Hns] _ IH]; intros i; cbn [skip_comments length].
  - f_equal. lia.
  - rewrite Hns, andb_false_r, bool_decide_eq_false_2 by done.
    rewrite IH. f_equal. lia.
Qed.

Lemma skip_comments_split (config rest : list string) i j :
  skip_comments config i = (rest, j) ->
  rest <> [] ->
  exists hd, config = (hd ++ rest)%list
             /\ forall rest', skip_comments (hd ++ rest') i = (rest', j).
Proof.
  revert i. induction config as [|l config IH]; intros i; cbn [skip_comments].
  - by intros [= <- <-].
  - destruct (bool_decide (l = "")) eqn:Hemp,
      (startswith l STOP_IGNORING) eqn:Hst; cbn [negb andb].
    + intros [= <- <-] _. exists [l]. split; [done|]. intros rest'.
      cbn [skip_comments app]. by rewrite Hemp, Hst.
    + intros [= <- <-] _. exists [l]. split; [done|]. intros rest'.
      cbn [skip_comments app]. by rewrite Hemp, Hst.
    + intros [= <- <-] _. exists [l]. split; [done|]. intros rest'.
      cbn [skip_comments app]. by rewrite Hemp, Hst.
    + intros Hskip Hrest. destruct (IH _ Hskip Hrest) as (hd & -> & Hhd).
      exists (l :: hd). split; [done|]. intros rest'.
      cbn [skip_comments app]. rewrite Hemp, Hst. apply Hhd.
Qed.

Lemma read_header_found (pre : list string) (stop blank tmp : string)
    (data : list string) :
  Forall (fun l => l <> "" /\ startswith l STOP_IGNORING = false) pre ->
  startswith stop STOP_IGNORING = true ->
  read_header (pre ++ stop :: blank :: tmp :: data)
  = (marker_of tmp, data, length pre + 4).
Proof.
  intros Hpre Hstop. unfold read_header.
  rewrite (skip_comments_found _ _ _ _ Hpre Hstop). cbn [readline].
  f_equal. lia.
Qed.

Lemma read_header_none (config : list string) :
  Forall (fun l => l <> "" /\ startswith l STOP_IGNORING = false) config ->
  read_header config = (RECORD_MARKER, [], length config + 4).
Proof.
  intros Hc. unfold read_header. rewrite (skip_comments_none _ _ Hc).
  cbn [readline]. f_equal. lia.
Qed.

(** The lines [read_header] takes off the file do not depend on what
    follows them. *)
Lemma read_header_split (config data : list string) (m : string) i0 :
  read_header config = (m, data, i0) ->
  data <> [] ->
  exists header, config = (header ++ data)%list
                 /\ forall data', read_header (header ++ data') = (m, data', i0).
Proof.
  unfold read_header.
  destruct (skip_comments config 0) as [c1 i] eqn:Hskip.
  destruct c1 as [|blank [|tmp c3]]; simpl; try by intros [= <- <- <-].
  intros [= <- <- <-] Hdata.
  destruct (skip_comments_split _ _ _ _ Hskip) as (hd & -> & Hhd); [done|].
  exists (hd ++ [blank; tmp])%list. split; [by rewrite <- (assoc_L (++))|].
  intros data'. rewrite <- (assoc_L (++)). by rewrite Hhd.
Qed.

End HeaderFacts.

(** ** The parser on whole files *)

Section FileFacts.
Context `{Regex}.
Import PyStr.

Lemma finish_idle (m : string) (rules : list RegExpression.t) i :
  finish m (idle rules i)
  = match rules with
    | [] => Raise no_regex_error
    | _ :: _ => Ok (m, rules)
    end.
Proof. by destruct rules. Qed.

Lemma items_lines_app (items1 items2 : list item) :
  items_lines (items1 ++ items2) = (items_lines items1 ++ items_lines items2)%list.
Proof. unfold items_lines. by rewrite fmap_app, concat_app. Qed.

Lemma enabled_entries_app (items1 items2 : list item) :
  enabled_entries (items1 ++ items2)
  = (enabled_entries items1 ++ enabled_entries items2)%list.
Proof.
  induction items1 as [|it items1 IH]; [done|].
  cbn [app]. rewrite !enabled_entries_cons, IH.
  destruct (item_entry it) as [e|]; [|done]. by destruct (entry_enabled e).
Qed.

Lemma enabled_entries_disabled (d : item) (items : list item) :
  item_disabled d = true -> enabled_entries (d :: items) = enabled_entries items.
Proof.
  intros Hd. rewrite enabled_entries_cons. unfold item_disabled in Hd.
  destruct (item_entry d) as [e|]; [|done].
  unfold entry_enabled. by rewrite Hd.
Qed.

Lemma enabled_entries_not_disabled (items : list item) :
  Forall (fun e => startswith (lower (entry_label e)) "disable" = false)
         (enabled_entries items).
Proof.
  induction items as [|it items IH]; [constructor|].
  rewrite enabled_entries_cons. destruct (item_entry it) as [e|]; [|done].
  destruct (entry_enabled e) eqn:He; [|done]. constructor; [|done].
  unfold entry_enabled, is_disabled in He. by apply negb_true_iff in He.
Qed.

Lemma build_all_Forall2 (es : list (string * string * string))
    (rules : list RegExpression.t) :
  build_all es = Ok rules
  <-> Forall2 (fun e r => RegExpression.__init__ e.1.1 e.1.2 e.2 = Ok r) es rules.
Proof.
  revert rules. induction es as [|[[fnd rw] sc] es IH]; intros rules; simpl.
  - split; [intros [= <-]; constructor | by intros ->%Forall2_nil_inv_l].
  - split.
    + destruct (RegExpression.__init__ fnd rw sc) as [r|e] eqn:Hr; [|done].
      destruct (build_all es) as [rs|e]; [|done]. simpl. intros [= <-].
      constructor; [done|]. by apply IH.
    + intros (r & rs & Hr & Hrs & ->)%Forall2_cons_inv_l. simpl in Hr.
      rewrite Hr. apply IH in Hrs. by rewrite Hrs.
Qed.

(** [get_regexes] on a file whose lines after the header are laid out as
    items. *)
Lemma get_regexes_lines_layout (config : list string) (m : string)
    (items : list item) i0 :
  read_header config = (m, items_lines items, i0) ->
  Forall valid_item items ->
  get_regexes_lines config
  = (rules <-! build_all (enabled_entries items) ;;
     match rules with
     | [] => Raise no_regex_error
     | _ :: _ => Ok (m, rules)
     end).
Proof.
  intros Hh Hv. unfold get_regexes_lines. rewrite Hh.
  rewrite <- (app_nil_r (items_lines items)).
  change (init_vars i0) with (idle [] i0).
  rewrite (for_lines_items _ _ _ _ Hv).
  destruct (build_all (enabled_entries items)) as [rules|e]; [|done].
  cbn [rbind for_lines app]. apply finish_idle.
Qed.

(** Every file [get_regexes] accepts is laid out as items after its
    header. *)
Lemma get_regexes_lines_accepted (config : list string) (m : string)
    (rules : list RegExpression.t) :
  get_regexes_lines config = Ok (m, rules) ->
  exists (items : list item) i0,
    read_header config = (m, items_lines items, i0)
    /\ Forall valid_item items
    /\ build_all (enabled_entries items) = Ok rules
    /\ rules <> [].
Proof.
  unfold get_regexes_lines.
  destruct (read_header config) as [[m' data] i0] eqn:Hh.
  destruct (for_lines data (init_vars i0)) as [v|e] eqn:Hv; [|done].
  cbn [rbind]. unfold finish.
  case_bool_decide as Hs; [|done]. cbn [negb].
  case_bool_decide as Hn; [done|]. intros [= -> <-].
  destruct (for_lines_layout data) as (Hlay & _).
  destruct (Hlay _ _ _ Hv Hs) as (items & -> & Hitems).
  exists items, i0. split; [done|]. split; [done|].
  rewrite <- (app_nil_r (items_lines items)) in Hv.
  change (init_vars i0) with (idle [] i0) in Hv.
  rewrite (for_lines_items _ _ _ _ Hitems) in Hv.
  destruct (build_all (enabled_entries items)) as [rules|e]; [|done].
  cbn in Hv. injection Hv as Hv. subst v. cbn [regexes idle] in *.
  split; [done|]. intros ->. cbn in Hn. lia.
Qed.

End FileFacts.

Section LayoutFacts.
Context `{Regex}.

Lemma items_lines_nil (items : list item) : items_lines items = [] -> items = [].
Proof. destruct items as [|[l|d ds s f r] items]; by cbn. Qed.

(** A file that differs from a laid-out file by one disabled entry gives
    the same result. *)
Lemma get_regexes_lines_skip_disabled (header : list string) (m : string) i0
    (items1 items2 : list item) (d : item) :
  (forall data', read_header (header ++ data') = (m, data', i0)) ->
  Forall valid_item (items1 ++ d :: items2) ->
  item_disabled d = true ->
  get_regexes_lines (header ++ items_lines (items1 ++ d :: items2))
  = get_regexes_lines (header ++ items_lines (items1 ++ items2)).
Proof.
  intros Hh Hv Hd.
  assert (Hv' : Forall valid_item (items1 ++ items2)).
  { apply Forall_app in Hv as [Hv1 Hv2]. apply Forall_cons in Hv2 as [_ Hv2].
    by apply Forall_app. }
  rewrite (get_regexes_lines_layout _ _ _ _ (Hh _) Hv).
  rewrite (get_regexes_lines_layout _ _ _ _ (Hh _) Hv').
  by rewrite !enabled_entries_app, (enabled_entries_disabled d _ Hd).
Qed.

End LayoutFacts.

(** C6.  When the parser accepts a rule file, the lines after its header
    are blank lines and entries (description lines, a scope line, a find
    line, a replace line), and the rules returned are those the constructor
    builds from the entries whose scope label does not start with
    "disable" in any casing, one rule per such entry and in the order of
    the file.  A disabled entry is passed over by the state machine without
    a call of the constructor, so it yields no rule whatever its find text
    is, and taking one out of the file or putting a well-formed one in
    between two items leaves the result as it was. *)
Theorem C6_disabled_entries_dropped `{Regex}
    (text m : string) (rules : list RegExpression.t) :
  get_regexes text = Ok (m, rules) ->
  exists (header : list string) (items : list item),
    PyStr.lines text = (header ++ items_lines items)%list
    /\ Forall valid_item items
    /\ Forall2 (fun e r => RegExpression.__init__ e.1.1 e.1.2 e.2 = Ok r)
               (enabled_entries items) rules
    /\ Forall (fun e => PyStr.startswith (PyStr.lower (entry_label e)) "disable" = false)
              (enabled_entries items)
    /\ (forall (v : vars) (replace_line sc : string),
           state v = 3 -> scope v = Some sc ->
           PyStr.startswith (PyStr.lower sc) "disable" = true ->
           step v replace_line = Ok (idle (regexes v) (S (i v))))
    /\ (forall (items1 items2 : list item) (d : item) (text' : string),
           items = (items1 ++ d :: items2)%list ->
           item_disabled d = true ->
           PyStr.lines text' = (header ++ items_lines (items1 ++ items2))%list ->
           get_regexes text' = Ok (m, rules))
    /\ (forall (items1 items2 : list item) (d : item) (text' : string),
           items = (items1 ++ items2)%list ->
           valid_item d ->
           item_disabled d = true ->
           PyStr.lines text' = (header ++ items_lines (items1 ++ d :: items2))%list ->
           get_regexes text' = Ok (m, rules)).
Proof.
  intros Hok. unfold get_regexes in Hok.
  destruct (get_regexes_lines_accepted _ _ _ Hok) as (items & i0 & Hh & Hv & Hb & Hne).
  destruct (read_header_split _ _ _ _ Hh) as (header & Hlines & Hhd).
  { intros Hnil. apply items_lines_nil in Hnil. subst items.
    cbn in Hb. by injection Hb as <-. }
  exists header, items.
  split; [done|]. split; [done|]. split; [by apply build_all_Forall2|].
  split; [apply enabled_entries_not_disabled|].
  split; [|split].
  - intros v replace_line sc Hs Hsc Hd. unfold step. rewrite Hs, Hsc.
    unfold is_disabled. change (PyStr.lower DISABLED) with "disable".
    by rewrite Hd.
  - intros items1 items2 d text' -> Hd Hlines'. unfold get_regexes.
    rewrite Hlines', <- (get_regexes_lines_skip_disabled _ _ _ _ _ d Hhd Hv Hd).
    by rewrite <- Hlines.
  - intros items1 items2 d text' -> Hvd Hd Hlines'. unfold get_regexes.
    rewrite Hlines', (get_regexes_lines_skip_disabled _ _ _ _ _ d Hhd); [|  |done].
    + by rewrite <- Hlines.
    + apply Forall_app in Hv as [Hv1 Hv2]. apply Forall_app. split; [done|].
      by constructor.
Qed.

Lemma C6_disabled_entries_dropped_witness :
  get_regexes (H := LiteralRe.engine) sample_rules
  = Ok ("lx", [sample_rule_narrow; sample_rule_broad])
  /\ get_regexes (H := LiteralRe.engine) sample_without_disabled
     = Ok ("lx", [sample_rule_narrow; sample_rule_broad])
  /\ exists (header : list string) (items : list item),
      PyStr.lines sample_rules = (header ++ items_lines items)%list
      /\ Forall2 (fun e r => RegExpression.__init__ e.1.1 e.1.2 e.2 = Ok r)
                 (enabled_entries items) [sample_rule_narrow; sample_rule_broad].
Proof.
  split; [reflexivity|]. split; [reflexivity|].
  destruct (C6_disabled_entries_dropped (H := LiteralRe.engine) sample_rules "lx"
              [sample_rule_narrow; sample_rule_broad] eq_refl)
    as (header & items & Hl & _ & Hb & _).
  by exists header, items.
Defined.

(** C7.  In a file whose first line starting with "}}" is followed by at
    least two more lines, the parser drops the line after the "}}" line
    whatever it holds, takes the record marker from the next one, and hands
    the lines after that to the state machine: the marker is the text after
    the last colon of that line, stripped of white space at both ends, or
    "lx" when the line has no colon. *)
Theorem C7_record_marker_line `{Regex}
    (pre : list string) (stop blank tmp rest : string) :
  Forall (fun l => complete_line l = true /\ PyStr.startswith l "}}" = false) pre ->
  complete_line stop = true ->
  PyStr.startswith stop "}}" = true ->
  complete_line blank = true ->
  complete_line tmp = true ->
  let text := PyStr.join (pre ++ [stop; blank; tmp]) +:+ rest in
  exists record_marker : string,
    read_header (PyStr.lines text)
    = (record_marker, PyStr.lines rest, length pre + 4)
    /\ get_regexes text
       = (v <-! for_lines (PyStr.lines rest) (init_vars (length pre + 4)) ;;
          finish record_marker v)
    /\ (forall m rules, get_regexes text = Ok (m, rules) -> m = record_marker)
    /\ (PyStr.contains ":" tmp = false -> record_marker = "lx")
    /\ (forall before after : string,
           tmp = before +:+ ":" +:+ after ->
           PyStr.contains ":" after = false ->
           record_marker = PyStr.strip after).
Proof.
  intros Hpre Hstop Hst Hblank Htmp text.
  assert (Hlines : PyStr.lines text
                   = (pre ++ stop :: blank :: tmp :: PyStr.lines rest)%list).
  { unfold text. rewrite lines_join.
    - by rewrite <- (assoc_L (++)).
    - apply Forall_app. split; [|by repeat constructor].
      eapply Forall_impl; [exact Hpre|]. by intros l [Hl _]. }
  assert (Hh : read_header (PyStr.lines text)
               = (marker_of tmp, PyStr.lines rest, length pre + 4)).
  { rewrite Hlines. apply read_header_found; [|done].
    eapply Forall_impl; [exact Hpre|]. intros l [Hl Hns].
    split; [by apply complete_line_nonempty | done]. }
  assert (Hg : get_regexes text
               = (v <-! for_lines (PyStr.lines rest) (init_vars (length pre + 4)) ;;
                  finish (marker_of tmp) v)).
  { unfold get_regexes, get_regexes_lines. by rewrite Hh. }
  exists (marker_of tmp). split; [done|]. split; [done|]. split; [|split].
  - intros m rules. rewrite Hg.
    destruct (for_lines _ _) as [v|e]; cbn [rbind]; [|done].
    unfold finish. repeat case_match; try done. by intros [= <- _].
  - apply marker_of_no_colon.
  - intros before after -> Hafter. by apply marker_of_colon.
Qed.

Lemma C7_record_marker_line_witness :
  get_regexes (H := LiteralRe.engine) sample_rules
  = (v <-! for_lines (H := LiteralRe.engine)
             (sample_narrow ++ sample_disabled ++ sample_broad) (init_vars 5) ;;
     finish "lx" v)
  /\ forall m rules,
      get_regexes (H := LiteralRe.engine) sample_rules = Ok (m, rules) -> m = "lx".
Proof.
  destruct (C7_record_marker_line (H := LiteralRe.engine)
              [line "{{ rules for the lexicon"] (line "}} end of comments")
              (line "") (line "record marker: lx ")
              (PyStr.join (sample_narrow ++ sample_disabled ++ sample_broad)))
    as (record_marker & _ & Hg & Hm & _ & Hcolon).
  - repeat constructor.
  - reflexivity.
  - reflexivity.
  - reflexivity.
  - reflexivity.
  - rewrite (Hcolon "record marker" (" lx " +:+ PyStr.nl) eq_refl eq_refl) in Hg, Hm.
    split; [exact Hg | exact Hm].
Defined.

Section DanglingFacts.
Context `{Regex}.
Import PyStr.

(** The lines of an entry cut short: descriptions only, descriptions and
    the scope line, or all but the replace line.  The loop ends on them
    inside the entry. *)
Lemma for_lines_dangling (desc : string) (more : list string) (tail : list string)
    rs n :
  startswith desc REGEX_DESC = true ->
  Forall (fun l => startswith l REGEX_DESC = true) more ->
  (tail = []
   \/ (exists scope_line, startswith scope_line REGEX_DESC = false
                          /\ tail = [scope_line])
   \/ (exists scope_line find_line, startswith scope_line REGEX_DESC = false
                                    /\ tail = [scope_line; find_line])) ->
  exists v, for_lines (desc :: more ++ tail) (idle rs n) = Ok v
            /\ state v <> 0
            /\ i v = n + length (desc :: more ++ tail).
Proof.
  intros Hd Hmore Htail. cbn [for_lines].
  rewrite (step_first_desc _ _ _ Hd). cbn [rbind].
  rewrite (for_lines_descs _ _ _ _ Hmore). cbn [length]. rewrite length_app.
  destruct Htail as [-> | [(s & Hs & ->) | (s & f & Hs & ->)]]; cbn [for_lines length].
  - eexists. split; [done|]. cbn. split; [done | lia].
  - rewrite (step_scope _ _ _ Hs). cbn [rbind].
    eexists. split; [done|]. cbn. split; [done | lia].
  - rewrite (step_scope _ _ _ Hs). cbn [rbind]. rewrite step_find. cbn [rbind].
    eexists. split; [done|]. cbn. split; [done | lia].
Qed.

Lemma incomplete_is_ConfigError n : is_ConfigError (incomplete_error n).
Proof. by eexists. Qed.

Lemma no_regex_is_ConfigError : is_ConfigError no_regex_error.
Proof. by eexists. Qed.

End DanglingFacts.

(** C8.  When the loop has gone through all the lines after the header
    and its state is not 0, [get_regexes] raises the configuration error
    for an incomplete last entry, with the line counter in the message.
    This is what happens when the file, after well-formed items whose
    rules the constructor accepts, ends inside an entry: after its
    description lines, after its scope line, or after its find line. *)
Theorem C8_incomplete_final_entry `{Regex}
    (text m : string) (data : list string) (i0 : nat) :
  read_header (PyStr.lines text) = (m, data, i0) ->
  (forall v : vars,
      for_lines data (init_vars i0) = Ok v ->
      state v <> 0 ->
      get_regexes text
      = Raise (Exception ("Config ERROR near line " +:+ pretty (i v)
          +:+ ": Incomplete set of info for the regular expression at the end of the regex file."))
      /\ is_ConfigError (incomplete_error (i v)))
  /\ (forall (items : list item) (desc : string) (more tail : list string)
             (rules : list RegExpression.t),
         data = (items_lines items ++ desc :: more ++ tail)%list ->
         Forall valid_item items ->
         build_all (enabled_entries items) = Ok rules ->
         PyStr.startswith desc "##" = true ->
         Forall (fun l => PyStr.startswith l "##" = true) more ->
         (tail = []
          \/ (exists scope_line, PyStr.startswith scope_line "##" = false
                                 /\ tail = [scope_line])
          \/ (exists scope_line find_line, PyStr.startswith scope_line "##" = false
                                           /\ tail = [scope_line; find_line])) ->
         get_regexes text = Raise (incomplete_error (i0 + length data))).
Proof.
  intros Hh.
  assert (Hmain : forall v : vars,
             for_lines data (init_vars i0) = Ok v ->
             state v <> 0 ->
             get_regexes text = Raise (incomplete_error (i v))).
  { intros v Hv Hs. unfold get_regexes, get_regexes_lines.
    rewrite Hh, Hv. cbn [rbind]. unfold finish.
    by rewrite bool_decide_eq_false_2. }
  split.
  - intros v Hv Hs. split; [by apply Hmain | apply incomplete_is_ConfigError].
  - intros items desc more tail rules -> Hitems Hb Hd Hmore Htail.
    destruct (for_lines_dangling desc more tail rules
                (i0 + length (items_lines items)) Hd Hmore Htail)
      as (v & Hv & Hs & Hi).
    assert (Hv' : for_lines (items_lines items ++ desc :: more ++ tail)
                    (init_vars i0) = Ok v).
    { change (init_vars i0) with (idle [] i0).
      rewrite (for_lines_items _ _ _ _ Hitems), Hb. by cbn. }
    rewrite (Hmain v Hv' Hs), Hi, length_app. by rewrite Nat.add_assoc.
Qed.

Lemma C8_incomplete_final_entry_witness :
  get_regexes (H := LiteralRe.engine) sample_no_replace_line
  = Raise (Exception "Config ERROR near line 13: Incomplete set of info for the regular expression at the end of the regex file.").
Proof.
  destruct (C8_incomplete_final_entry (H := LiteralRe.engine)
              sample_no_replace_line "lx"
              (sample_narrow ++ [line "## cats to dogs"; line "broad"; line "cat"])
              5 eq_refl) as [Hmain _].
  exact (proj1 (Hmain (Vars (Some "cat") None (Some "broad") 3 [sample_rule_narrow] 13)
                  eq_refl ltac:(discriminate))).
Defined.

(** C9.  [get_regexes] never returns an empty list of rules.  When the loop
    gets to the end of the file with no rule accepted, it raises a
    configuration error; the error is the one asking for the closing
    "}}" and an enabled regular expression when no line starts with "}}"
    (every line was taken for leading comment), and when the lines after
    the header are well-formed items none of which is an enabled entry
    (nothing but blank lines, or every entry disabled). *)
Theorem C9_no_enabled_rule `{Regex} (text : string) :
  (forall m : string, get_regexes text <> Ok (m, []))
  /\ (forall (m : string) (data : list string) (i0 : nat) (v : vars),
         read_header (PyStr.lines text) = (m, data, i0) ->
         for_lines data (init_vars i0) = Ok v ->
         regexes v = [] ->
         exists e, get_regexes text = Raise e /\ is_ConfigError e)
  /\ (Forall (fun l => PyStr.startswith l "}}" = false) (PyStr.lines text) ->
      get_regexes text
      = Raise (Exception "Config ERROR: Please close the initial comments with a line beginning with }} and after that provide at least one enabled regular expression."))
  /\ (forall (m : string) (items : list item) (i0 : nat),
         read_header (PyStr.lines text) = (m, items_lines items, i0) ->
         Forall valid_item items ->
         Forall (fun it => item_disabled it = true \/ item_entry it = None) items ->
         get_regexes text = Raise no_regex_error
         /\ is_ConfigError no_regex_error).
Proof.
  split; [|split; [|split]].
  - intros m Hok. unfold get_regexes in Hok.
    by destruct (get_regexes_lines_accepted _ _ _ Hok) as (_ & _ & _ & _ & _ & Hne).
  - intros m data i0 v Hh Hv Hr. unfold get_regexes, get_regexes_lines.
    rewrite Hh, Hv. cbn [rbind]. unfold finish. rewrite Hr.
    case_bool_decide; cbn [negb].
    + eexists. split; [done|]. apply no_regex_is_ConfigError.
    + eexists. split; [done|]. apply incomplete_is_ConfigError.
  - intros Hnone. unfold get_regexes, get_regexes_lines.
    rewrite read_header_none; [done|].
    pose proof (lines_nonempty text) as Hne.
    rewrite Forall_forall in *. intros l Hl. split; [by apply Hne | by apply Hnone].
  - intros m items i0 Hh Hv Hdis. split; [|apply no_regex_is_ConfigError].
    unfold get_regexes. rewrite (get_regexes_lines_layout _ _ _ _ Hh Hv).
    assert (enabled_entries items = []) as ->; [|done].
    clear Hh Hv. induction Hdis as [|it items Hit _ IH]; [done|].
    rewrite enabled_entries_cons, IH. unfold item_disabled in Hit.
    destruct (item_entry it) as [e|]; [|done].
    destruct Hit as [Hit|Hit]; [|done]. unfold entry_enabled. by rewrite Hit.
Qed.

Lemma C9_no_enabled_rule_witness :
  get_regexes (H := LiteralRe.engine) sample_only_disabled = Raise no_regex_error
  /\ get_regexes (H := LiteralRe.engine) (line "no closing marker" +:+ line "## x")
     = Raise no_regex_error.
Proof.
  split.
  - destruct (C9_no_enabled_rule (H := LiteralRe.engine) sample_only_disabled)
      as (_ & _ & _ & Hdis).
    refine (proj1 (Hdis "lx"
              [Entry (line "## switched off") [] (line "DISABLED-xyz")
                 (line "(((") (line "x")] 5 eq_refl _ _)).
    + repeat constructor.
    + repeat constructor.
  - destruct (C9_no_enabled_rule (H := LiteralRe.engine)
                (line "no closing marker" +:+ line "## x")) as (_ & _ & Hnone & _).
    apply Hnone. repeat constructor.
Defined.

(** * Further properties *)

(** ** ascii *)

Section ConsoleFacts.
Import Console.

Lemma encode_is_ASCII (s2 : list N) : is_ASCII (encode_ASCII_replace s2) = true.
Proof.
  induction s2 as [|cp s2 IH]; [done|]. cbn [encode_ASCII_replace is_ASCII].
  rewrite IH, andb_true_r. destruct (cp <? 128)%N eqn:Hcp; [|done].
  apply N.ltb_lt in Hcp. rewrite N_ascii_embedding by lia. by apply N.ltb_lt.
Qed.

Lemma encode_code_points (s : string) :
  is_ASCII s = true -> encode_ASCII_replace (code_points s) = s.
Proof.
  induction s as [|c s IH]; [done|]. cbn [is_ASCII].
  intros [Hc Hs]%andb_true_iff. unfold code_points in *.
  cbn [list_ascii_of_string fmap list_fmap encode_ASCII_replace].
  by rewrite Hc, ascii_N_embedding, (IH Hs).
Qed.

Lemma ascii_only_ASCII (normalize_NFKD : string -> list N) (s : string) :
  is_ASCII (ascii normalize_NFKD s) = true.
Proof.
  unfold ascii. case_bool_decide; cbn [negb].
  - apply encode_is_ASCII.
  - change ("~" +:+ ?x) with (String "~" x). cbn [is_ASCII].
    by rewrite encode_is_ASCII.
Qed.

End ConsoleFacts.

(** X1.  Whatever the normal form of the text is, [ascii] returns ASCII
    characters only. *)
Theorem X1_ascii_is_ASCII (normalize_NFKD : string -> list N) (s : string) :
  Console.is_ASCII (Console.ascii normalize_NFKD s) = true.
Proof. apply ascii_only_ASCII. Qed.

(** X2.  When normalisation leaves ASCII text as it is (as NFKD does),
    [ascii] returns an ASCII text unchanged, without a tilde, and applying
    it twice gives what applying it once gives. *)
Theorem X2_ascii_fixes_ASCII (normalize_NFKD : string -> list N) (s : string) :
  (forall t, Console.is_ASCII t = true -> normalize_NFKD t = Console.code_points t) ->
  (Console.is_ASCII s = true -> Console.ascii normalize_NFKD s = s)
  /\ Console.ascii normalize_NFKD (Console.ascii normalize_NFKD s)
     = Console.ascii normalize_NFKD s.
Proof.
  intros Hnf.
  assert (Hfix : forall t, Console.is_ASCII t = true -> Console.ascii normalize_NFKD t = t).
  { intros t Ht. unfold Console.ascii.
    rewrite (Hnf t Ht), (encode_code_points t Ht).
    by rewrite bool_decide_eq_true_2. }
  split; [apply Hfix|]. apply Hfix, ascii_only_ASCII.
Qed.

Lemma X2_ascii_fixes_ASCII_witness :
  Console.ascii Console.code_points "lexicon.txt" = "lexicon.txt"
  /\ Console.ascii Console.code_points
       (Console.ascii Console.code_points (String (ascii_of_nat 233) "t"))
     = "~?t".
Proof.
  destruct (X2_ascii_fixes_ASCII Console.code_points "lexicon.txt" (fun t _ => eq_refl))
    as [Hfix _].
  destruct (X2_ascii_fixes_ASCII Console.code_points (String (ascii_of_nat 233) "t")
              (fun t _ => eq_refl)) as [_ Hidem].
  split; [exact (Hfix eq_refl) | exact Hidem].
Defined.

(** ** apply_narrowly, further *)

Section NarrowFacts.
Context `{Regex}.
Import RegExpression.

Lemma narrow_fields_zero (self : t) (record : list field) :
  (narrow_fields self record).2 = Ok 0 -> (narrow_fields self record).1 = record.
Proof.
  induction record as [|[mkr field_data] rest IH]; [done|].
  cbn [narrow_fields].
  destruct (narrow_fields self rest) as [rest' res]. cbn [fst snd] in IH.
  destruct (in_scope self mkr).
  - destruct (re_subn _ _ field_data) as [[field_data' c]|]; [|done].
    destruct res as [n|e]; [|done]. cbn. intros [= Hsum].
    assert (c = 0) as -> by lia. assert (n = 0) as -> by lia.
    by rewrite IH.
  - cbn. intros Hres. by rewrite IH.
Qed.

Lemma narrow_fields_app_accepted (self : t) (before rest : list field) :
  engine_accepts self before ->
  narrow_fields self (before ++ rest)
  = (((narrow_field self <$> before) ++ (narrow_fields self rest).1)%list,
     n <-! (narrow_fields self rest).2 ;;
     Ok (sum_list (field_count self <$> before) + n)).
Proof.
  induction 1 as [|[mkr field_data] before Hfld _ IH].
  - cbn. destruct (narrow_fields self rest) as [rest' [n|e]]; by cbn.
  - cbn [app narrow_fields fmap list_fmap sum_list sum_list_with].
    rewrite IH.
    destruct (in_scope self mkr) eqn:Hin.
    + destruct (Hfld Hin) as [[field_data' c] Hsub]. cbn [snd] in Hsub.
      assert (Hnf : narrow_field self (mkr, field_data)
                    = (mkr, match c with 0 => field_data | S _ => field_data' end)).
      { unfold narrow_field. cbn [fst snd]. rewrite Hin, Hsub. by destruct c. }
      assert (Hfc : field_count self (mkr, field_data) = c).
      { unfold field_count. cbn [fst snd]. by rewrite Hin, Hsub. }
      rewrite Hsub, Hnf, Hfc.
      destruct (narrow_fields self rest) as [rest' [n|e]]; cbn; [|done].
      do 2 f_equal. lia.
    + assert (Hnf : narrow_field self (mkr, field_data) = (mkr, field_data)).
      { unfold narrow_field. cbn [fst snd]. by rewrite Hin. }
      assert (Hfc : field_count self (mkr, field_data) = 0).
      { unfold field_count. cbn [fst snd]. by rewrite Hin. }
      rewrite Hnf, Hfc.
      by destruct (narrow_fields self rest) as [rest' [n|e]].
Qed.

Lemma narrow_fields_none_in_scope (self : t) (record : list field) :
  (forall mkr, in_scope self mkr = false) ->
  narrow_fields self record = (record, Ok 0).
Proof.
  intros Hnone. induction record as [|[mkr field_data] rest IH]; [done|].
  cbn [narrow_fields]. by rewrite Hnone, IH.
Qed.

End NarrowFacts.

(** X3.  When [apply_narrowly] on a narrow rule returns the count 0, the
    record is as it was before the call. *)
Theorem X3_count_zero_record_unchanged `{Regex}
    (self : RegExpression.t) (record record' : list RegExpression.field) :
  RegExpression.narrow self = true ->
  RegExpression.apply_narrowly self record = (record', Ok 0) ->
  record' = record.
Proof.
  intros Hn. rewrite (apply_narrowly_fields self record Hn). intros Hr.
  rewrite <- (narrow_fields_zero self record); by rewrite Hr.
Qed.

Lemma X3_count_zero_record_unchanged_witness :
  RegExpression.apply_narrowly sample_rule_narrow [("lx", "bleeh"); ("de", "foo")]
  = ([("lx", "bleeh"); ("de", "foo")], Ok 0).
Proof.
  pose proof (X3_count_zero_record_unchanged (H := LiteralRe.engine)
                sample_rule_narrow [("lx", "bleeh"); ("de", "foo")]
                [("lx", "bleeh"); ("de", "foo")] eq_refl eq_refl) as _.
  reflexivity.
Defined.

(** X4.  [apply_narrowly] does not undo its work when the engine raises:
    if the engine accepts the fields before a selected field and raises on
    that one, the exception is the engine's, the fields before it keep the
    contents already replaced, and that field and the fields after it are
    as they were. *)
Theorem X4_engine_error_keeps_earlier_replacements `{Regex}
    (self : RegExpression.t) (before after : list RegExpression.field)
    (mkr field_data : string) :
  RegExpression.narrow self = true ->
  engine_accepts self before ->
  RegExpression.in_scope self mkr = true ->
  re_subn (RegExpression._find self) (RegExpression._replace self) field_data = None ->
  RegExpression.apply_narrowly self (before ++ (mkr, field_data) :: after)
  = (((narrow_field self <$> before) ++ (mkr, field_data) :: after)%list,
     Raise re_error).
Proof.
  intros Hn Hacc Hin Hnone.
  rewrite (apply_narrowly_fields _ _ Hn), (narrow_fields_app_accepted _ _ _ Hacc).
  cbn [narrow_fields]. by rewrite Hin, Hnone.
Qed.

Lemma X4_engine_error_keeps_earlier_replacements_witness :
  let self := RegExpression.Build (H := LiteralRe.engine)
                "eeh" "eeh" "\1" ["de"] true true in
  RegExpression.apply_narrowly self [("lx", "bleeh"); ("de", "foo eeh"); ("se", "yeeda")]
  = ([("lx", "bleeh"); ("de", "foo eeh"); ("se", "yeeda")], Raise re_error).
Proof.
  intros self.
  refine (X4_engine_error_keeps_earlier_replacements (H := LiteralRe.engine)
            self [("lx", "bleeh")] [("se", "yeeda")] "de" "foo eeh"
            eq_refl _ eq_refl eq_refl).
  repeat constructor. discriminate.
Defined.

(** X5.  A label with the "sfmval:" prefix and no space in it (such as
    "sfmval:de") gives a rule with no field name at all, since the names
    are what follows the first space: on every record [apply_narrowly]
    returns the record as it is with count 0, whatever the engine would
    do. *)
Theorem X5_qualifier_without_space_selects_nothing `{Regex}
    (find_this replace_with fields : string) (pat : Pattern) :
  re_compile find_this = Some pat ->
  PyStr.startswith (PyStr.lower fields) "sfmval:" = true ->
  PyStr.contains " " fields = false ->
  exists r,
    RegExpression.__init__ find_this replace_with fields = Ok r
    /\ scope_of r = NarrowSpecificFields []
    /\ forall record, RegExpression.apply_narrowly r record = (record, Ok 0).
Proof.
  intros Hc Hq Hsp. eexists.
  split; [by apply init_specific; [|left]|].
  rewrite (split_no_sep PyStr.SP fields Hsp). split; [done|]. intros record.
  rewrite apply_narrowly_fields by done.
  apply narrow_fields_none_in_scope. intros mkr.
  unfold RegExpression.in_scope. cbn. by apply bool_decide_eq_false_2, not_elem_of_nil.
Qed.

Lemma X5_qualifier_without_space_selects_nothing_witness :
  exists r,
    RegExpression.__init__ (H := LiteralRe.engine) "eeh" "EEH" "sfmval:de" = Ok r
    /\ RegExpression.apply_narrowly r [("de", "foo eeh")] = ([("de", "foo eeh")], Ok 0).
Proof.
  destruct (X5_qualifier_without_space_selects_nothing (H := LiteralRe.engine)
              "eeh" "EEH" "sfmval:de" "eeh" eq_refl eq_refl eq_refl)
    as (r & Hr & _ & Hkeep).
  exists r. split; [exact Hr | apply Hkeep].
Defined.

(** ** get_regexes, further *)

Section ParserFurther.
Context `{Regex}.
Import PyStr.

(** The header of a file given by its lines. *)
Lemma read_header_of_lines (text : string) (pre : list string)
    (stop blank tmp : string) (data : list string) :
  lines text = (pre ++ stop :: blank :: tmp :: data)%list ->
  Forall (fun l => startswith l STOP_IGNORING = false) pre ->
  startswith stop STOP_IGNORING = true ->
  read_header (lines text) = (marker_of tmp, data, length pre + 4).
Proof.
  intros Hlines Hpre Hstop. pose proof (lines_nonempty text) as Hne.
  rewrite Hlines in *. apply Forall_app in Hne as [Hne _].
  apply read_header_found; [|done].
  rewrite Forall_forall in *. intros l Hl. split; [by apply Hne | by apply Hpre].
Qed.

Lemma init_raises (find_this replace_with fields : string) (e : exn) :
  RegExpression.__init__ find_this replace_with fields = Raise e ->
  e = re_error \/ e = InvalidScopeError fields.
Proof.
  unfold RegExpression.__init__. repeat case_match; try done.
  - intros [= <-]. by right.
  - intros [= <-]. by left.
Qed.

Lemma constructor_error_not_ConfigError (e : exn) (fields : string) :
  e = re_error \/ e = InvalidScopeError fields -> ~ is_ConfigError e.
Proof. intros [-> | ->] [rest Hrest]; discriminate. Qed.

Lemma build_all_app_raise (es1 es2 : list (string * string * string))
    (rules1 : list RegExpression.t) (fnd rw sc : string) (e : exn) :
  build_all es1 = Ok rules1 ->
  RegExpression.__init__ fnd rw sc = Raise e ->
  build_all (es1 ++ (fnd, rw, sc) :: es2) = Raise e.
Proof.
  revert rules1. induction es1 as [|[[f1 r1] s1] es1 IH]; intros rules1; cbn.
  - intros _ ->. done.
  - destruct (RegExpression.__init__ f1 r1 s1); [|done]. cbn.
    destruct (build_all es1) as [rs|e'] eqn:Hes1; [|done]. cbn.
    intros _ He. by rewrite (IH rs eq_refl He).
Qed.

End ParserFurther.

(** X6.  What [get_regexes] makes of a file laid out as the docstring
    says: comment lines none of which starts with "}}", the "}}" line, one
    more line, the record-marker line, then blank lines and entries.  The
    rules of the entries that are not disabled are constructed in the
    order of the file; the first exception of the constructor is the
    result; otherwise the result is the record marker with the rules, or
    the error asking for an enabled regular expression when there is no
    rule. *)
Theorem X6_get_regexes_on_laid_out_file `{Regex}
    (text : string) (pre : list string) (stop blank tmp : string)
    (items : list item) :
  PyStr.lines text = (pre ++ stop :: blank :: tmp :: items_lines items)%list ->
  Forall (fun l => PyStr.startswith l "}}" = false) pre ->
  PyStr.startswith stop "}}" = true ->
  Forall valid_item items ->
  get_regexes text
  = (rules <-! build_all (enabled_entries items) ;;
     match rules with
     | [] => Raise no_regex_error
     | _ :: _ => Ok (marker_of tmp, rules)
     end).
Proof.
  intros Hlines Hpre Hstop Hitems. unfold get_regexes.
  apply (get_regexes_lines_layout _ _ _ (length pre + 4)); [|done].
  exact (read_header_of_lines _ _ _ _ _ _ Hlines Hpre Hstop).
Qed.

Lemma X6_get_regexes_on_laid_out_file_witness :
  get_regexes (H := LiteralRe.engine) sample_rules
  = Ok ("lx", [sample_rule_narrow; sample_rule_broad]).
Proof.
  refine (X6_get_regexes_on_laid_out_file (H := LiteralRe.engine) sample_rules
            [line "{{ rules for the lexicon"] (line "}} end of comments") (line "")
            (line "record marker: lx ")
            [Entry (line "## capitals in definitions") [line "## and subentries"]
               (line "sfmval: de se") (line "eeh") (line "EEH");
             Entry (line "## switched off") [] (line "DISABLED-xyz")
               (line "(((") (line "x");
             Blank (line "");
             Entry (line "## cats to dogs") [] (line "Broad") (line "cat") (line "dog")]
            eq_refl _ eq_refl _).
  - repeat constructor.
  - repeat constructor.
Defined.

(** X7.  An exception of the constructor leaves [get_regexes] as it was
    raised: when the rules of the entries before an enabled entry are
    constructed and the constructor raises on that entry, the result is
    that exception, the engine's error or the invalid-scope exception for
    the label of the entry; it is no configuration error and carries no
    line number. *)
Theorem X7_constructor_exception_propagates `{Regex}
    (text : string) (pre : list string) (stop blank tmp : string)
    (items1 items2 : list item) (desc : string) (more : list string)
    (scope_line find_line replace_line : string)
    (rules1 : list RegExpression.t) (e : exn) :
  PyStr.lines text
  = (pre ++ stop :: blank :: tmp
       :: items_lines (items1
                       ++ Entry desc more scope_line find_line replace_line :: items2))%list ->
  Forall (fun l => PyStr.startswith l "}}" = false) pre ->
  PyStr.startswith stop "}}" = true ->
  Forall valid_item (items1 ++ Entry desc more scope_line find_line replace_line :: items2) ->
  build_all (enabled_entries items1) = Ok rules1 ->
  is_disabled (chomp scope_line) = false ->
  RegExpression.__init__ (chomp find_line) (chomp replace_line) (chomp scope_line)
  = Raise e ->
  get_regexes text = Raise e
  /\ (e = re_error
      \/ e = Exception ("Invalid regex scope label: " +:+ chomp scope_line))
  /\ ~ is_ConfigError e.
Proof.
  intros Hlines Hpre Hstop Hitems Hb1 Hen He.
  pose proof (init_raises _ _ _ _ He) as Hkind.
  split; [|split; [done | by eapply constructor_error_not_ConfigError]].
  unfold get_regexes.
  rewrite (get_regexes_lines_layout _ _ _ _
             (read_header_of_lines _ _ _ _ _ _ Hlines Hpre Hstop) Hitems).
  rewrite enabled_entries_app, enabled_entries_cons. cbn [item_entry].
  unfold entry_enabled, entry_label. cbn [snd]. rewrite Hen. cbn [negb].
  by rewrite (build_all_app_raise _ _ _ _ _ _ _ Hb1 He).
Qed.

Lemma X7_constructor_exception_propagates_witness :
  get_regexes (H := LiteralRe.engine)
    (PyStr.join (sample_header ++ sample_narrow
                 ++ [line "## unknown scope"; line "weird"; line "cat"; line "dog"]))
  = Raise (Exception "Invalid regex scope label: weird").
Proof.
  refine (proj1 (X7_constructor_exception_propagates (H := LiteralRe.engine)
            (PyStr.join (sample_header ++ sample_narrow
               ++ [line "## unknown scope"; line "weird"; line "cat"; line "dog"]))
            [line "{{ rules for the lexicon"] (line "}} end of comments") (line "")
            (line "record marker: lx ")
            [Entry (line "## capitals in definitions") [line "## and subentries"]
               (line "sfmval: de se") (line "eeh") (line "EEH")] []
            (line "## unknown scope") [] (line "weird") (line "cat") (line "dog")
            [sample_rule_narrow] _ eq_refl _ eq_refl _ eq_refl eq_refl eq_refl)).
  - repeat constructor.
  - repeat constructor.
Defined.

(** X8.  A line that is neither blank nor a description where an entry
    should begin raises the configuration error for a missing description;
    the number in its message is the number of that line in the file,
    counted from 1, plus one. *)
Theorem X8_description_error_line_number `{Regex}
    (text : string) (pre : list string) (stop blank tmp : string)
    (items : list item) (bad : string) (rest : list string)
    (rules : list RegExpression.t) :
  PyStr.lines text
  = (pre ++ stop :: blank :: tmp :: items_lines items ++ bad :: rest)%list ->
  Forall (fun l => PyStr.startswith l "}}" = false) pre ->
  PyStr.startswith stop "}}" = true ->
  Forall valid_item items ->
  build_all (enabled_entries items) = Ok rules ->
  PyStr.rstrip (chomp bad) <> "" ->
  PyStr.startswith bad "##" = false ->
  get_regexes text
  = Raise (Exception ("Config ERROR near line "
      +:+ pretty (length (pre ++ stop :: blank :: tmp :: items_lines items ++ [bad]) + 1)
      +:+ ": Each regex needs to begin with at least one description line beginning with ##.")).
Proof.
  intros Hlines Hpre Hstop Hitems Hb Hbad Hnd.
  unfold get_regexes, get_regexes_lines.
  rewrite (read_header_of_lines _ _ _ _ _ _ Hlines Hpre Hstop).
  change (init_vars (length pre + 4)) with (idle [] (length pre + 4)).
  rewrite (for_lines_items _ _ _ _ Hitems), Hb. cbn [rbind for_lines].
  rewrite (step_no_desc _ _ _ Hbad Hnd). cbn [rbind]. unfold desc_error.
  do 4 f_equal. apply (f_equal pretty).
  rewrite !length_app. cbn [length]. rewrite length_app. cbn [length]. lia.
Qed.

Lemma X8_description_error_line_number_witness :
  get_regexes (H := LiteralRe.engine)
    (PyStr.join (sample_header ++ sample_narrow ++ [line "cat"; line "dog"]))
  = Raise (Exception "Config ERROR near line 11: Each regex needs to begin with at least one description line beginning with ##.").
Proof.
  refine (X8_description_error_line_number (H := LiteralRe.engine)
            (PyStr.join (sample_header ++ sample_narrow ++ [line "cat"; line "dog"]))
            [line "{{ rules for the lexicon"] (line "}} end of comments") (line "")
            (line "record marker: lx ")
            [Entry (line "## capitals in definitions") [line "## and subentries"]
               (line "sfmval: de se") (line "eeh") (line "EEH")]
            (line "cat") [line "dog"] [sample_rule_narrow]
            eq_refl _ eq_refl _ eq_refl _ eq_refl).
  - repeat constructor.
  - repeat constructor.
  - discriminate.
Defined.

(** ** run_sample and execute *)

Section RunFacts.
Context `{Regex}.
Import RegExpression.

Lemma append_nil_r (s : string) : s +:+ "" = s.
Proof.
  induction s as [|c s IH]; [done|]. rewrite append_cons. by f_equal.
Qed.

Lemma narrow_fields_raises (self : t) (record : list field) (e : exn) :
  (narrow_fields self record).2 = Raise e -> e = re_error.
Proof.
  induction record as [|[mkr field_data] rest IH]; [done|].
  cbn [narrow_fields].
  destruct (narrow_fields self rest) as [rest' res]. cbn [snd] in IH.
  destruct (in_scope self mkr); [|done].
  destruct (re_subn _ _ field_data) as [[field_data' c]|]; [|by intros [= <-]].
  destruct res as [n|e']; [done|]. cbn. intros [= <-]. by apply IH.
Qed.

Lemma run_sample_loop_narrow_only (regexes : list t) (record : list field) :
  run_sample_loop regexes record
  = run_sample_loop (List.filter narrow regexes) record.
Proof.
  revert record. induction regexes as [|regex rest IH]; intros record; [done|].
  cbn [run_sample_loop List.filter]. destruct (narrow regex) eqn:Hn; [|apply IH].
  cbn [run_sample_loop]. rewrite Hn.
  destruct (apply_narrowly regex record) as [record' [c|e]]; [apply IH | done].
Qed.

Lemma run_sample_loop_markers (regexes : list t) (record after : list field) :
  run_sample_loop regexes record = Ok after -> after.*1 = record.*1.
Proof.
  revert record. induction regexes as [|regex rest IH]; intros record.
  - by intros [= <-].
  - cbn [run_sample_loop]. destruct (narrow regex) eqn:Hn; [|apply IH].
    rewrite (apply_narrowly_fields _ _ Hn).
    pose proof (narrow_fields_markers regex record) as Hm.
    destruct (narrow_fields regex record) as [record' [c|e]]; [|done].
    intros Hrest. by rewrite (IH _ Hrest).
Qed.

Lemma run_sample_loop_raises (regexes : list t) (record : list field) (e : exn) :
  run_sample_loop regexes record = Raise e -> e = re_error.
Proof.
  revert record. induction regexes as [|regex rest IH]; intros record; [done|].
  cbn [run_sample_loop]. destruct (narrow regex) eqn:Hn; [|apply IH].
  rewrite (apply_narrowly_fields _ _ Hn).
  pose proof (narrow_fields_raises regex record) as Hr.
  destruct (narrow_fields regex record) as [record' [c|e']]; [apply IH|].
  intros [= <-]. by apply Hr.
Qed.

Lemma apply_regexes_app (sfm : option SFMTools) (record_marker : string)
    (regexes1 regexes2 : list t) (data : string) (total : nat) :
  apply_regexes sfm record_marker (regexes1 ++ regexes2) data total
  = match apply_regexes sfm record_marker regexes1 data total with
    | Done (data', total') => apply_regexes sfm record_marker regexes2 data' total'
    | Failed e => Failed e
    end.
Proof.
  revert data total. induction regexes1 as [|regex rest IH]; intros data total; [done|].
  cbn [app apply_regexes]. destruct (negb (narrow regex)).
  - destruct (apply regex data) as [[data' count]|e]; [apply IH | done].
  - destruct sfm as [tools|]; [|done].
    destruct (narrow_records _ _ _ _ _ _) as [[data' modcount]|e]; [apply IH | done].
Qed.

Lemma apply_regexes_broad (sfm : option SFMTools) (record_marker : string)
    (regexes : list t) (data : string) (total : nat) :
  some_narrow regexes = false ->
  apply_regexes sfm record_marker regexes data total
  = match broad_pipeline regexes data with
    | Some (out, count) => Done (out, total + count)
    | None => Failed (Propagated re_error)
    end.
Proof.
  revert data total. induction regexes as [|regex rest IH]; intros data total.
  - intros _. cbn. by rewrite Nat.add_0_r.
  - cbn [some_narrow existsb]. intros [Hn Hrest]%orb_false_iff.
    cbn [apply_regexes broad_pipeline]. rewrite Hn. cbn [negb].
    unfold apply. rewrite Hn.
    destruct (re_subn _ _ data) as [[data' count]|]; [|done].
    rewrite (IH _ _ Hrest).
    destruct (broad_pipeline rest data') as [[out n]|]; [|done].
    do 2 f_equal. lia.
Qed.

Lemma narrow_records_accepted (tools : SFMTools) (regex : t)
    (records : list (list field)) (data_out data : string) (modcount : nat) :
  narrow regex = true ->
  Forall (engine_accepts regex) records ->
  narrow_records tools regex records data_out data modcount
  = Ok (narrowed_document tools regex data_out records data,
        modcount + narrowed_count regex records).
Proof.
  intros Hn Hacc. revert data_out data modcount.
  induction Hacc as [|L records HL _ IH]; intros data_out data modcount.
  - cbn. by rewrite Nat.add_0_r.
  - cbn [narrow_records]. rewrite (apply_narrowly_fields _ _ Hn).
    destruct (narrow_fields_accepted regex L HL) as [count Hcount].
    destruct (narrow_fields_Ok regex L count Hcount) as [Hafter Hsum].
    destruct (narrow_fields regex L) as [L' res]. cbn [fst snd] in *.
    subst res L' count. rewrite IH. unfold narrowed_document, narrowed_count.
    cbn [fmap list_fmap PyStr.join sum_list sum_list_with].
    f_equal. f_equal.
    + destruct records as [|L2 records]; cbn [fmap list_fmap PyStr.join].
      * by rewrite append_nil_r.
      * by rewrite append_assoc.
    + unfold id. lia.
Qed.

End RunFacts.

(** X9.  [run_sample] passes over the rules that are not narrow, so it
    never ends with the wrong-mode exception: it does what it does on the
    narrow rules alone, the only exception it can end with is the
    engine's, and the record it shows afterwards has the markers of the
    canned record, lx, de, se, de, in this order. *)
Theorem X9_run_sample_skips_broad_rules `{Regex} (regexes : list RegExpression.t) :
  run_sample regexes = run_sample (List.filter RegExpression.narrow regexes)
  /\ (forall after, run_sample regexes = Ok after ->
                    after.*1 = ["lx"; "de"; "se"; "de"])
  /\ (forall e, run_sample regexes = Raise e ->
                e = re_error /\ ~ is_WrongModeError e).
Proof.
  unfold run_sample. split; [apply run_sample_loop_narrow_only|]. split.
  - intros after Hafter. by rewrite (run_sample_loop_markers _ _ _ Hafter).
  - intros e He. rewrite (run_sample_loop_raises _ _ _ He).
    split; [done|]. by intros [?|?].
Qed.

(** X10.  When the output file exists and overwriting was not asked for,
    [execute], once the rule file is read, writes nothing and ends with
    [UnboundLocalError]: the closing message uses [modcounttotal], which
    only the other branch assigns. *)
Theorem X10_execute_refusing_to_overwrite `{Regex}
    (args : Args) (sfm : option SFMTools) (fs : gmap string string)
    (record_marker : string) (regexes : list RegExpression.t) :
  get_regexes_file fs (regexfile args) = Done (record_marker, regexes) ->
  overwr args = false ->
  is_Some (fs !! outfile args) ->
  execute args sfm fs = (fs, Failed (UnboundLocalError "modcounttotal")).
Proof.
  intros Hr Ho Hex. unfold execute. rewrite Hr, Ho. cbn [negb andb].
  by rewrite bool_decide_eq_true_2.
Qed.

Lemma X10_execute_refusing_to_overwrite_witness :
  let fs : gmap string string :=
    {[ "ApplyRE.regex.txt" := sample_rules; "lexicon.txt" := "cat sat";
       "lexicon-out.tmp.txt" := "kept" ]} in
  execute (H := LiteralRe.engine)
    (Build_Args "lexicon.txt" "lexicon-out.tmp.txt" "ApplyRE.regex.txt" false) None fs
  = (fs, Failed (UnboundLocalError "modcounttotal")).
Proof.
  intros fs.
  refine (X10_execute_refusing_to_overwrite (H := LiteralRe.engine)
            (Build_Args "lexicon.txt" "lexicon-out.tmp.txt" "ApplyRE.regex.txt" false)
            None fs
            "lx" [sample_rule_narrow; sample_rule_broad] _ eq_refl _).
  - vm_compute. reflexivity.
  - eexists. vm_compute. reflexivity.
Defined.

(** X11.  [execute] changes no file but the output file, and changes none
    when it ends with an exception; when it returns, the rule file and the
    input file existed, the output file exists afterwards, and it existed
    before only if overwriting was asked for. *)
Theorem X11_execute_writes_only_the_output `{Regex}
    (args : Args) (sfm : option SFMTools) (fs : gmap string string) :
  (forall name, name <> outfile args -> (execute args sfm fs).1 !! name = fs !! name)
  /\ (forall e, (execute args sfm fs).2 = Failed e -> (execute args sfm fs).1 = fs)
  /\ ((execute args sfm fs).2 = Done () ->
      is_Some (fs !! regexfile args)
      /\ is_Some (fs !! infile args)
      /\ is_Some ((execute args sfm fs).1 !! outfile args)
      /\ (overwr args = true \/ fs !! outfile args = None)).
Proof.
  unfold execute, get_regexes_file.
  destruct (fs !! regexfile args) as [text|] eqn:Hrf; [|by repeat split].
  destruct (get_regexes text) as [[record_marker regexes]|e0]; [|by repeat split].
  destruct (negb (overwr args) && bool_decide (is_Some (fs !! outfile args)))
    eqn:Hrefuse; [by repeat split|].
  destruct (fs !! infile args) as [data|] eqn:Hin; [|by repeat split].
  destruct (if some_narrow regexes then _ else _) as [e1|]; [by repeat split|].
  destruct (apply_regexes sfm record_marker regexes data 0) as [[out total]|e2];
    [|by repeat split].
  cbn [fst snd]. split; [|split].
  - intros name Hname. by rewrite lookup_insert_ne.
  - done.
  - intros _. split; [done|]. split; [done|]. split.
    + rewrite lookup_insert_eq. by eexists.
    + apply andb_false_iff in Hrefuse as [Ho|Hex].
      * left. by apply negb_false_iff.
      * right. apply bool_decide_eq_false in Hex.
        by apply eq_None_not_Some.
Qed.

(** X12.  With no narrow rule in the rule file, and the output file absent
    or overwriting asked for, [execute] writes to the output file the
    input text after the rules applied one after the other, each on the
    text the one before it returned, whether [SFMTools] can be imported or
    not; when the engine raises on a rule, nothing is written. *)
Theorem X12_execute_broad_rules `{Regex}
    (args : Args) (sfm : option SFMTools) (fs : gmap string string)
    (record_marker data : string) (regexes : list RegExpression.t) :
  get_regexes_file fs (regexfile args) = Done (record_marker, regexes) ->
  some_narrow regexes = false ->
  overwr args = true \/ fs !! outfile args = None ->
  fs !! infile args = Some data ->
  execute args sfm fs
  = match broad_pipeline regexes data with
    | Some (out, _) => (<[outfile args := out]> fs, Done ())
    | None => (fs, Failed (Propagated re_error))
    end.
Proof.
  intros Hr Hb Hw Hin. unfold execute. rewrite Hr, Hin, Hb.
  assert (negb (overwr args) && bool_decide (is_Some (fs !! outfile args)) = false)
    as ->.
  { destruct Hw as [-> | ->]; [done|]. rewrite bool_decide_eq_false_2, andb_false_r; [done|].
    by intros [? ?]. }
  rewrite (apply_regexes_broad _ _ _ _ _ Hb).
  by destruct (broad_pipeline regexes data) as [[out total]|].
Qed.

Lemma X12_execute_broad_rules_witness :
  let fs : gmap string string :=
    {[ "rules.txt" := PyStr.join (sample_header ++ sample_broad);
       "lexicon.txt" := "cat sat" ]} in
  execute (H := LiteralRe.engine)
    (Build_Args "lexicon.txt" "out.txt" "rules.txt" false) None fs
  = (<["out.txt" := "dog sat"]> fs, Done ()).
Proof.
  intros fs.
  refine (X12_execute_broad_rules (H := LiteralRe.engine)
            (Build_Args "lexicon.txt" "out.txt" "rules.txt" false) None fs
            "lx" "cat sat" [sample_rule_broad] _ eq_refl _ _).
  - vm_compute. reflexivity.
  - right. vm_compute. reflexivity.
  - vm_compute. reflexivity.
Defined.

(** X13.  The rules are applied in sequence: going through a list of rules
    followed by a second list is going through the first list, then
    through the second on the text and the count the first left, and an
    exception in the first list ends the run before the second. *)
Theorem X13_rules_apply_in_sequence `{Regex}
    (sfm : option SFMTools) (record_marker : string)
    (regexes1 regexes2 : list RegExpression.t) (data : string) (total : nat) :
  apply_regexes sfm record_marker (regexes1 ++ regexes2) data total
  = match apply_regexes sfm record_marker regexes1 data total with
    | Done (data', total') => apply_regexes sfm record_marker regexes2 data' total'
    | Failed e => Failed e
    end.
Proof. apply apply_regexes_app. Qed.

(** X14.  With a narrow rule in the rule file and no [SFMTools] to import,
    [execute], once both files are read, writes nothing and ends with the
    exception "Aborted." after the demonstration on the canned record, or
    with the engine's exception when the demonstration raises it. *)
Theorem X14_execute_without_SFMTools `{Regex}
    (args : Args) (fs : gmap string string)
    (record_marker data : string) (regexes : list RegExpression.t) :
  get_regexes_file fs (regexfile args) = Done (record_marker, regexes) ->
  some_narrow regexes = true ->
  overwr args = true \/ fs !! outfile args = None ->
  fs !! infile args = Some data ->
  exists e,
    execute args None fs = (fs, Failed (Propagated e))
    /\ (e = Exception "Aborted." \/ e = re_error)
    /\ (e = re_error <-> run_sample regexes = Raise re_error).
Proof.
  intros Hr Hn Hw Hin. unfold execute. rewrite Hr, Hin, Hn.
  assert (negb (overwr args) && bool_decide (is_Some (fs !! outfile args)) = false)
    as ->.
  { destruct Hw as [-> | ->]; [done|]. rewrite bool_decide_eq_false_2, andb_false_r; [done|].
    by intros [? ?]. }
  destruct (run_sample regexes) as [after|e] eqn:Hs.
  - exists (Exception "Aborted."). split; [done|]. split; [by left|]. by split.
  - unfold run_sample in Hs. rewrite (run_sample_loop_raises _ _ _ Hs).
    exists re_error. split; [done|]. split; [by right|]. by split.
Qed.

Lemma X14_execute_without_SFMTools_witness :
  let fs : gmap string string :=
    {[ "ApplyRE.regex.txt" := sample_rules; "lexicon.txt" := "cat sat" ]} in
  execute (H := LiteralRe.engine)
    (Build_Args "lexicon.txt" "out.txt" "ApplyRE.regex.txt" true) None fs
  = (fs, Failed (Propagated (Exception "Aborted."))).
Proof.
  intros fs.
  destruct (X14_execute_without_SFMTools (H := LiteralRe.engine)
              (Build_Args "lexicon.txt" "out.txt" "ApplyRE.regex.txt" true) fs
              "lx" "cat sat" [sample_rule_narrow; sample_rule_broad])
    as (e & Hex & [-> | ->] & He).
  - vm_compute. reflexivity.
  - reflexivity.
  - by left.
  - vm_compute. reflexivity.
  - exact Hex.
  - exfalso. destruct He as [He _]. specialize (He eq_refl).
    vm_compute in He. discriminate He.
Defined.

(** X15.  A narrow rule in the loop of [execute], when the engine raises on
    no field it reaches: the document becomes the header of the reader
    followed by its records written back after the narrow pass, and the
    count grows by the replacements made in all records.  When the reader
    finds no record the document is left as it was, header or not, since
    the assignment to [data] lies inside the loop over the records. *)
Theorem X15_narrow_rule_in_the_loop `{Regex}
    (tools : SFMTools) (record_marker : string)
    (regex : RegExpression.t) (rest : list RegExpression.t)
    (data : string) (total : nat) :
  RegExpression.narrow regex = true ->
  Forall (engine_accepts regex) (reader_records tools data record_marker) ->
  let records := reader_records tools data record_marker in
  let header := reader_header tools data record_marker in
  apply_regexes (Some tools) record_marker (regex :: rest) data total
  = apply_regexes (Some tools) record_marker rest
      (narrowed_document tools regex header records data)
      (total + narrowed_count regex records)
  /\ (records = [] -> narrowed_document tools regex header records data = data)
  /\ (records <> [] ->
      narrowed_document tools regex header records data
      = header +:+ PyStr.join ((fun L => as_string tools (narrow_field regex <$> L))
                               <$> records)).
Proof.
  intros Hn Hacc records header. split; [|split].
  - cbn [apply_regexes]. rewrite Hn. cbn [negb].
    change ("" +:+ reader_header tools data record_marker) with header.
    fold records in Hacc |- *.
    rewrite (narrow_records_accepted _ _ _ _ _ _ Hn Hacc).
    by rewrite Nat.add_0_l.
  - by intros ->.
  - intros Hne. unfold narrowed_document. by destruct records.
Qed.

Lemma X15_narrow_rule_in_the_loop_witness :
  let tools := {| reader_header := fun _ _ => "";
                  reader_records := fun data _ => [[("lx", data)]];
                  as_string := print_joined_text |} in
  apply_regexes (H := LiteralRe.engine) (Some tools) "lx"
    [RegExpression.Build (H := LiteralRe.engine) "eeh" "eeh" "EEH" [] true false]
    "bleeh" 0
  = Done ("\lx blEEH", 1).
Proof.
  intros tools.
  destruct (X15_narrow_rule_in_the_loop (H := LiteralRe.engine) tools "lx"
              (RegExpression.Build (H := LiteralRe.engine) "eeh" "eeh" "EEH" [] true false)
              [] "bleeh" 0 eq_refl) as (-> & _).
  - repeat constructor. intros _. by eexists.
  - reflexivity.
Defined.

Section RuleInvariant.
Context `{Regex}.
Import RegExpression.

Lemma init_invariant (find_this replace_with fields : string) (r : t) :
  __init__ find_this replace_with fields = Ok r ->
  re_compile find_this = Some (_find r)
  /\ _findstr r = find_this
  /\ _replace r = replace_with
  /\ (_narrow_specific r = true -> narrow r = true)
  /\ (_narrow_specific r = false -> _fields r = []).
Proof.
  unfold __init__. destruct (re_compile find_this) as [pat|]; [|done].
  repeat case_match; try done; by intros [= <-].
Qed.

End RuleInvariant.

(** X16.  Every rule [get_regexes] returns holds the pattern the engine
    compiled from its find text, and its scope attributes are consistent:
    a rule with specific fields is narrow, and a rule without specific
    fields has an empty list of field names. *)
Theorem X16_returned_rules_are_well_formed `{Regex}
    (text m : string) (rules : list RegExpression.t) :
  get_regexes text = Ok (m, rules) ->
  Forall (fun r =>
            re_compile (RegExpression._findstr r) = Some (RegExpression._find r)
            /\ (RegExpression._narrow_specific r = true -> RegExpression.narrow r = true)
            /\ (RegExpression._narrow_specific r = false -> RegExpression._fields r = []))
         rules.
Proof.
  intros Hok. unfold get_regexes in Hok.
  destruct (get_regexes_lines_accepted _ _ _ Hok) as (items & i0 & _ & _ & Hb & _).
  apply build_all_Forall2 in Hb. clear Hok.
  induction Hb as [|e r es rs Hr _ IH]; constructor; [|done].
  destruct (init_invariant _ _ _ _ Hr) as (Hc & Hfs & _ & Hs & Hf).
  rewrite Hfs. done.
Qed.

Lemma X16_returned_rules_are_well_formed_witness :
  Forall (fun r =>
            re_compile (RegExpression._findstr r) = Some (RegExpression._find r)
            /\ (RegExpression._narrow_specific r = true -> RegExpression.narrow r = true)
            /\ (RegExpression._narrow_specific r = false -> RegExpression._fields r = []))
         [sample_rule_narrow; sample_rule_broad].
Proof.
  exact (X16_returned_rules_are_well_formed (H := LiteralRe.engine)
           sample_rules "lx" [sample_rule_narrow; sample_rule_broad] eq_refl).
Defined.
